(** * MQTT to Supabase bridge: a shallow embedding of [mqtt-streamer.py]

    The bridge subscribes to two MQTT topics, decodes every inbound message
    as JSON, turns [device/data] messages into [StreamData] rows and inserts
    them into the [stream_data] table.  This file embeds the message
    pipeline ([_on_message], [_handle_data_message], [_handle_debug_message],
    [DatabaseManager.store_data]), the connect callback ([_on_connect]) and
    the supervisor loop ([MQTTBridge.start]) and proves the properties the
    specification states about them.

    Python values are modelled by [pyval], Python exceptions by [exn], and
    the callbacks by a small state/exception/trace monad [M]: a computation
    threads the state of the outside world (broker, store, clock), may raise,
    and emits the calls it makes to its collaborators as a list of [event]s. *)

From Stdlib Require Import ZArith Strings.Byte Strings.Ascii Floats.SpecFloat Lia.
From stdpp Require Import gmap strings list.

Set Warnings "-register-all".
Set Default Proof Using "Type".

(** ** Python values and exceptions *)

(** What [json.loads] can return.  Dictionaries are finite maps with string
    keys; a float is an IEEE 754 value (sign, mantissa, exponent; zeros,
    infinities and NaN). *)
Inductive pyval : Type :=
| PNone
| PBool (b : bool)
| PInt (z : Z)
| PFloat (f : spec_float)
| PStr (s : string)
| PList (l : list pyval)
| PDict (d : gmap string pyval).

(** [type(v).__name__] *)
Definition type_name (v : pyval) : string :=
  match v with
  | PNone => "NoneType"
  | PBool _ => "bool"
  | PInt _ => "int"
  | PFloat _ => "float"
  | PStr _ => "str"
  | PList _ => "list"
  | PDict _ => "dict"
  end.

(** Instances of Python's [Exception].  [KeyboardInterrupt] and [SystemExit]
    derive from [BaseException] only; they are requests to stop the process,
    handled in [main], and are not errors of message processing: they have no
    constructor here. *)
Inductive exn : Type :=
| KeyError (key : string)
| TypeError (msg : string)
| AttributeError (msg : string)
| UnicodeDecodeError (msg : string)
| JSONDecodeError (msg : string)
| OtherException (cls msg : string).

(** The classes named in the [except] clauses of the source. *)
Inductive exn_class : Type := KeyErrorC | JSONDecodeErrorC | ExceptionC.

Definition isinstance (e : exn) (c : exn_class) : bool :=
  match c, e with
  | ExceptionC, _ => true
  | KeyErrorC, KeyError _ => true
  | JSONDecodeErrorC, JSONDecodeError _ => true
  | _, _ => false
  end.

Inductive result (A : Type) : Type :=
| Ok (a : A)
| Raise (e : exn).
Arguments Ok {A} a.
Arguments Raise {A} e.

(** [payload[key]] for a string key. *)
Definition getitem (payload : pyval) (key : string) : result pyval :=
  match payload with
  | PDict d =>
      match d !! key with
      | Some v => Ok v
      | None => Raise (KeyError key)
      end
  | PList _ => Raise (TypeError "list indices must be integers or slices, not str")
  | PStr _ => Raise (TypeError "string indices must be integers, not 'str'")
  | v => Raise (TypeError ("'" +:+ type_name v +:+ "' object is not subscriptable"))
  end.

(** [payload.get(key, dflt)] *)
Definition dict_get (payload : pyval) (key : string) (dflt : pyval) : result pyval :=
  match payload with
  | PDict d => Ok (default dflt (d !! key))
  | v => Raise (AttributeError ("'" +:+ type_name v +:+ "' object has no attribute 'get'"))
  end.

(** ** Topics and configuration *)

Inductive TopicType : Type := DATA | DEBUG.

Definition value (t : TopicType) : string :=
  match t with
  | DATA => "device/data"
  | DEBUG => "device/debug"
  end.

(** Iterating over the enumeration, in declaration order. *)
Definition TopicType_members : list TopicType := [DATA; DEBUG].

Record MQTTConfig : Type := {
  broker : string;
  port : Z;
  topics : list (string * Z)
}.

(** ** The record model *)

(** The dataclass carries no run-time type check: whatever the payload
    holds under a key is stored in the field, so the fields taken from the
    payload are [pyval]s.  [created_at] is the string made by
    [datetime.utcnow().isoformat()]. *)
Record StreamData : Type := {
  stream_id : pyval;
  frame_id : pyval;
  device_id : pyval;
  timestamp : pyval;
  timeout : pyval;
  image_data : pyval;
  metadata : pyval;
  created_at : string
}.

(** [dataclasses.asdict(data)]: one entry per field (field values are copied,
    which is the identity on immutable models of values). *)
Definition asdict (data : StreamData) : gmap string pyval :=
  <["stream_id" := stream_id data]>
  (<["frame_id" := frame_id data]>
  (<["device_id" := device_id data]>
  (<["timestamp" := timestamp data]>
  (<["timeout" := timeout data]>
  (<["image_data" := image_data data]>
  (<["metadata" := metadata data]>
  (<["created_at" := PStr (created_at data)]> ∅))))))).

(** ** Observable behaviour *)

(** An event is a call the bridge makes.  A logging call is recorded
    whether or not the configured level lets it through: the module sets
    the root logger to [INFO], so [LDEBUG] calls produce no output. *)
Inductive level : Type := LDEBUG | LINFO | LERROR.

(** paho's [ReasonCode].  The client is created with
    [CallbackAPIVersion.VERSION2], so this object, not an [int], is what
    [on_connect] receives as [rc].  It carries the numeric code of the
    acknowledgment and compares equal to an [int] of that value; it is not
    a number. *)
Record ReasonCode : Type := { rc_value : Z }.

(** Arguments of a logging call. *)
Inductive logarg : Type :=
| AStr (s : string)
| AInt (z : Z)
| AVal (v : pyval)
| AExc (e : exn)                 (* str(e) *)
| ABytes (b : list byte)
| AStrs (l : list string)
| ACode (rc : ReasonCode).

Inductive event : Type :=
| Log (lvl : level) (fmt : string) (args : list logarg)
| LogTraceback (e : exn)         (* logger.error(traceback.format_exc()) while handling e *)
| New (r : StreamData)           (* StreamData(...) returned r *)
| DbInsert (table : string) (row : gmap string pyval)
                                 (* client.table(table).insert(row).execute() *)
| Subscribe (tps : list (string * Z))
| Connect (host : string) (prt : Z)
| LoopForever
| Sleep (seconds : Z).

(** The records built and the rows handed to the store along a trace. *)
Definition records_built (tr : list event) : list StreamData :=
  omap (fun ev => match ev with New r => Some r | _ => None end) tr.

Definition rows_inserted (tr : list event) : list (gmap string pyval) :=
  omap (fun ev => match ev with DbInsert _ row => Some row | _ => None end) tr.

Definition subscriptions (tr : list event) : list (list (string * Z)) :=
  omap (fun ev => match ev with Subscribe tps => Some tps | _ => None end) tr.

Definition connects (tr : list event) : list (string * Z) :=
  omap (fun ev => match ev with Connect h p => Some (h, p) | _ => None end) tr.

Definition sleeps (tr : list event) : list Z :=
  omap (fun ev => match ev with Sleep s => Some s | _ => None end) tr.

Definition is_log (ev : event) : bool :=
  match ev with
  | Log _ _ _ | LogTraceback _ => true
  | _ => false
  end.

(** ** The effect monad

    A computation reads and updates the state [Sigma] of the outside world,
    returns a value or raises an exception, and lists the events it
    emitted, oldest first. *)
Definition M (Sigma A : Type) : Type := Sigma -> result A * Sigma * list event.

Definition ret {Sigma A} (a : A) : M Sigma A :=
  fun s => (Ok a, s, []).

Definition bind {Sigma A B} (m : M Sigma A) (k : A -> M Sigma B) : M Sigma B :=
  fun s =>
    match m s with
    | (Ok a, s1, t1) => let '(r, s2, t2) := k a s1 in (r, s2, t1 ++ t2)
    | (Raise e, s1, t1) => (Raise e, s1, t1)
    end.

Definition emit {Sigma} (ev : event) : M Sigma unit :=
  fun s => (Ok tt, s, [ev]).

(** A value or exception computed without touching the world. *)
Definition lift {Sigma A} (r : result A) : M Sigma A :=
  fun s => (r, s, []).

(** A call into a collaborator: the world answers and moves on. *)
Definition call {Sigma A} (f : Sigma -> result A * Sigma) : M Sigma A :=
  fun s => let '(r, s1) := f s in (r, s1, []).

(** [try: body  except c1 as e: h1  except c2 as e: h2 ...]: the first
    clause whose class the exception is an instance of handles it; an
    exception no clause matches propagates. *)
Definition try_except {Sigma A} (body : M Sigma A)
    (handlers : list (exn_class * (exn -> M Sigma A))) : M Sigma A :=
  fun s =>
    match body s with
    | (Ok a, s1, t1) => (Ok a, s1, t1)
    | (Raise e, s1, t1) =>
        match List.find (fun h => isinstance e (fst h)) handlers with
        | Some h => let '(r, s2, t2) := snd h e s1 in (r, s2, t1 ++ t2)
        | None => (Raise e, s1, t1)
        end
    end.

Declare Scope py_scope.
Delimit Scope py_scope with py.
Notation "x <- m ;; k" := (bind m (fun x => k))
  (at level 100, m at next level, right associativity) : py_scope.
Notation "m ;; k" := (bind m (fun _ => k))
  (at level 100, right associativity) : py_scope.

Definition outcome {Sigma A} (x : result A * Sigma * list event) : result A := fst (fst x).
Definition world {Sigma A} (x : result A * Sigma * list event) : Sigma := snd (fst x).
Definition trace {Sigma A} (x : result A * Sigma * list event) : list event := snd x.

(** [returns x]: the call came back to its caller instead of raising. *)
Definition returns {A} (r : result A) : Prop :=
  match r with
  | Ok _ => True
  | Raise _ => False
  end.

(** Run the callbacks [f x1], [f x2], ... in order; an exception that
    escapes one of them ends the run. *)
Fixpoint for_each {Sigma A} (f : A -> M Sigma unit) (xs : list A) : M Sigma unit :=
  match xs with
  | [] => ret tt
  | x :: rest => (f x ;; for_each f rest)%py
  end.

(** What the broker does during one run of the network loop: the callbacks
    it triggers, in order, and how the loop ends.  Sessions are finite
    here; a session that never ends keeps the supervisor inside
    [loop_forever], serving messages, for good. *)
Inductive callback : Type :=
| OnConnect (rc : ReasonCode)
| OnMessage (topic : string) (payload : list byte).

Record session : Type := {
  deliveries : list callback;
  ending : result unit
}.

(** ** The outside world

    The collaborators the bridge calls but does not implement: the clock,
    the Supabase client, the standard decoders, the paho client and the
    process environment.  The theorems hold for every [World]. *)
Class World : Type := {
  Sigma : Type;
  (** [datetime.utcnow().isoformat()] *)
  utcnow_isoformat : Sigma -> string * Sigma;
  (** [self._client.table(t).insert(row).execute()] of the Supabase client;
      the source ignores the value it returns. *)
  supabase_insert : string -> gmap string pyval -> Sigma -> result unit * Sigma;
  (** [msg.payload.decode()] and [json.loads] *)
  bytes_decode : list byte -> result string;
  json_loads : string -> result pyval;
  (** [self._client.connect(host, port)] of the paho client, and what the
      next run of [self._client.loop_forever()] is going to deliver. *)
  mqtt_connect : string -> Z -> Sigma -> result unit * Sigma;
  mqtt_session : Sigma -> session * Sigma;
  (** The environment variables [MQTT_BROKER] and [int(MQTT_PORT)]. *)
  env_broker : string;
  env_port : Z
}.

Section Bridge.
Context {W : World}.
Local Open Scope py_scope.

Local Abbreviation Py := (M Sigma).

Definition log (lvl : level) (fmt : string) (args : list logarg) : Py unit :=
  emit (Log lvl fmt args).

(** *** [MQTTBridge.__init__]: the configuration *)

Definition _mqtt_config : MQTTConfig :=
  {| broker := env_broker;
     port := env_port;
     topics := (fun topic => (value topic, 1%Z)) <$> TopicType_members |}.

(** *** [StreamData(...)] as called by [_handle_data_message]

    The keyword arguments are evaluated left to right; then the dataclass
    fills [created_at] from the clock. *)
Definition new_StreamData (payload : pyval) : Py StreamData :=
  v_stream_id <- lift (getitem payload "stream_id") ;;
  v_frame_id <- lift (getitem payload "frame_id") ;;
  v_device_id <- lift (getitem payload "device_id") ;;
  v_timestamp <- lift (getitem payload "timestamp") ;;
  v_timeout <- lift (getitem payload "timeout") ;;
  v_data <- lift (getitem payload "data") ;;
  v_metadata <- lift (dict_get payload "metadata" (PDict ∅)) ;;
  now <- call (fun s => let '(t, s1) := utcnow_isoformat s in (Ok t, s1)) ;;
  let r := {| stream_id := v_stream_id;
              frame_id := v_frame_id;
              device_id := v_device_id;
              timestamp := v_timestamp;
              timeout := v_timeout;
              image_data := v_data;
              metadata := v_metadata;
              created_at := now |} in
  emit (New r) ;;
  ret r.

(** *** [DatabaseManager.store_data] *)
Definition store_data (data : StreamData) : Py bool :=
  try_except
    (emit (DbInsert "stream_data" (asdict data)) ;;
     call (supabase_insert "stream_data" (asdict data)) ;;
     log LINFO "Successfully stored frame %s for stream %s"
         [AVal (frame_id data); AVal (stream_id data)] ;;
     ret true)
    [(ExceptionC, fun e =>
        log LERROR "Error storing data: %s" [AExc e] ;;
        emit (LogTraceback e) ;;
        ret false)].

(** *** [MQTTBridge._handle_data_message] *)
Definition _handle_data_message (payload : pyval) : Py unit :=
  try_except
    (stream_data <- new_StreamData payload ;;
     stored <- store_data stream_data ;;
     if stored
     then log LINFO "Successfully processed frame %s" [AVal (frame_id stream_data)]
     else ret tt)
    [(KeyErrorC, fun e =>
        log LERROR "Missing required field in payload: %s" [AExc e]);
     (ExceptionC, fun e =>
        log LERROR "Error handling data message: %s" [AExc e])].

(** *** [MQTTBridge._handle_debug_message] *)
Definition _handle_debug_message (payload : pyval) : Py unit :=
  meta <- lift (dict_get payload "meta" (PDict ∅)) ;;
  log LDEBUG "Debug data: %s" [AVal meta].

(** *** [MQTTBridge._on_message] *)
Definition _on_message (topic : string) (raw : list byte) : Py unit :=
  try_except
    (log LDEBUG "Received message on topic: %s" [AStr topic] ;;
     text <- lift (bytes_decode raw) ;;
     payload <- lift (json_loads text) ;;
     if String.eqb topic (value DATA) then _handle_data_message payload
     else if String.eqb topic (value DEBUG) then _handle_debug_message payload
     else ret tt)
    [(JSONDecodeErrorC, fun e =>
        log LERROR "Failed to decode JSON message: %s" [AExc e] ;;
        log LDEBUG "Raw message: %s" [ABytes raw]);
     (ExceptionC, fun e =>
        log LERROR "Error processing message: %s" [AExc e] ;;
        emit (LogTraceback e))].

(** *** [MQTTBridge._on_connect]

    [rc == 0] is [ReasonCode.__eq__] against an [int]: the values are
    compared. *)
Definition _on_connect (rc : ReasonCode) : Py unit :=
  if (rc_value rc =? 0)%Z
  then
    log LINFO "Connected to MQTT broker successfully" [] ;;
    emit (Subscribe (topics _mqtt_config)) ;;
    log LINFO "Subscribed to topics: %s" [AStrs (fst <$> topics _mqtt_config)]
  else
    log LERROR "Failed to connect to MQTT broker with code %d" [ACode rc].

(** *** The network loop

    [_setup_mqtt_client] registers [_on_connect] and [_on_message]; the
    paho loop calls them, one at a time and in delivery order, on the
    thread that runs [loop_forever]. *)
Definition dispatch (cb : callback) : Py unit :=
  match cb with
  | OnConnect rc => _on_connect rc
  | OnMessage topic raw => _on_message topic raw
  end.

Definition loop_forever : Py unit :=
  emit LoopForever ;;
  sess <- call (fun s => let '(x, s1) := mqtt_session s in (Ok x, s1)) ;;
  for_each dispatch (deliveries sess) ;;
  lift (ending sess).

(** *** [MQTTBridge.start]

    [start_round] is the body of the [while True:] loop and [start n] its
    first [n] rounds.  The loop has no [break] and no [return]: control
    leaves it only through an exception that escapes the body, so
    [Ok tt] after [n] rounds means that the loop is about to begin round
    [n + 1]. *)
Definition start_round : Py unit :=
  try_except
    (log LINFO "Connecting to MQTT broker at %s:%d"
         [AStr (broker _mqtt_config); AInt (port _mqtt_config)] ;;
     emit (Connect (broker _mqtt_config) (port _mqtt_config)) ;;
     call (mqtt_connect (broker _mqtt_config) (port _mqtt_config)) ;;
     log LINFO "Starting MQTT loop..." [] ;;
     loop_forever)
    [(ExceptionC, fun e =>
        log LERROR "MQTT connection error: %s" [AExc e] ;;
        emit (LogTraceback e) ;;
        log LINFO "Retrying connection in 5 seconds..." [] ;;
        emit (Sleep 5))].

Fixpoint start (rounds : nat) : Py unit :=
  match rounds with
  | O => ret tt
  | S n => start_round ;; start n
  end.

End Bridge.

(** ** Reference decoders for the worked examples

    [bytes.decode] and [json.loads] belong to Python, not to the bridge, and
    the theorems below hold whatever they answer.  The worked examples run
    the bridge on concrete bytes and need concrete decoders: a UTF-8
    validator and a reader for the part of JSON without floats and without
    backslash escapes.  A [str] is represented by its UTF-8 bytes.  Input
    outside that part of JSON is answered with [NotImplementedError], so
    no example can rest on it. *)
Module Reference.

(** Well-formed UTF-8, as [bytes.decode()] requires it (no overlong
    forms, no surrogates, nothing above U+10FFFF). *)
Fixpoint utf8_valid (fuel : nat) (l : list N) : bool :=
  let cont b := ((128 <=? b) && (b <=? 191))%N in
  match fuel with
  | O => false
  | S n =>
      match l with
      | [] => true
      | b0 :: r =>
          if (b0 <=? 127)%N then utf8_valid n r
          else if ((194 <=? b0) && (b0 <=? 223))%N then
            match r with
            | b1 :: r1 => cont b1 && utf8_valid n r1
            | _ => false
            end
          else if ((224 <=? b0) && (b0 <=? 239))%N then
            match r with
            | b1 :: b2 :: r2 =>
                cont b1 && cont b2
                && (if (b0 =? 224)%N then (160 <=? b1)%N else true)
                && (if (b0 =? 237)%N then (b1 <=? 159)%N else true)
                && utf8_valid n r2
            | _ => false
            end
          else if ((240 <=? b0) && (b0 <=? 244))%N then
            match r with
            | b1 :: b2 :: b3 :: r3 =>
                cont b1 && cont b2 && cont b3
                && (if (b0 =? 240)%N then (144 <=? b1)%N else true)
                && (if (b0 =? 244)%N then (b1 <=? 143)%N else true)
                && utf8_valid n r3
            | _ => false
            end
          else false
      end
  end.

Definition decode (raw : list byte) : result string :=
  if utf8_valid (S (length raw)) (Byte.to_N <$> raw)
  then Ok (String.string_of_list_byte raw)
  else Raise (UnicodeDecodeError "'utf-8' codec can't decode bytes").

Inductive parsed (A : Type) : Type :=
| Parsed (a : A) (rest : list ascii)
| Malformed              (* json.loads raises JSONDecodeError *)
| Unsupported.           (* outside the part of JSON read here *)
Arguments Parsed {A} a rest.
Arguments Malformed {A}.
Arguments Unsupported {A}.

Definition is_ws (c : ascii) : bool :=
  match c with
  | " "%char | "009"%char | "010"%char | "013"%char => true
  | _ => false
  end.

Fixpoint skip_ws (l : list ascii) : list ascii :=
  match l with
  | c :: r => if is_ws c then skip_ws r else l
  | [] => []
  end.

Definition digit_of (c : ascii) : option Z :=
  let n := Z.of_N (Ascii.N_of_ascii c) in
  if ((48 <=? n) && (n <=? 57))%Z then Some (n - 48)%Z else None.

(** The digits at the head of [l], most significant first. *)
Fixpoint read_digits (acc : Z) (l : list ascii) : Z * list ascii :=
  match l with
  | c :: r =>
      match digit_of c with
      | Some d => read_digits (10 * acc + d)%Z r
      | None => (acc, l)
      end
  | [] => (acc, [])
  end.

(** After the opening quote: the characters up to the closing quote. *)
Fixpoint read_string (acc : list ascii) (l : list ascii) : parsed string :=
  match l with
  | [] => Malformed
  | c :: r =>
      if Ascii.eqb c "034"%char then Parsed (String.string_of_list_ascii (rev acc)) r
      else if Ascii.eqb c "\"%char then Unsupported
      else if (Ascii.N_of_ascii c <? 32)%N then Malformed
      else read_string (c :: acc) r
  end.

(** An integer literal: an optional minus sign, then a single zero or a
    digit string without leading zero; a fraction or an exponent after it
    makes a float. *)
Definition read_int (l : list ascii) : parsed pyval :=
  let '(neg, l1) :=
    match l with
    | "-"%char :: r => (true, r)
    | _ => (false, l)
    end in
  match l1 with
  | c :: r =>
      match digit_of c with
      | Some d =>
          let '(n, rest) := if (d =? 0)%Z then (0%Z, r) else read_digits d r in
          if (4300 <? length l1 - length rest)%nat then Unsupported
          else
            match rest with
            | "."%char :: _ | "e"%char :: _ | "E"%char :: _ => Unsupported
            | _ => Parsed (PInt (if neg then - n else n)%Z) rest
            end
      | None => if Ascii.eqb c "I"%char then Unsupported else Malformed
      end
  | [] => Malformed
  end.

Definition max_depth : nat := 64.

Fixpoint read_value (fuel depth : nat) (l : list ascii) {struct fuel} : parsed pyval :=
  match fuel with
  | O => Unsupported
  | S n =>
      match l with
      | "{"%char :: r =>
          if (max_depth <? depth)%nat then Unsupported
          else
            match skip_ws r with
            | "}"%char :: r1 => Parsed (PDict ∅) r1
            | r1 => read_members n (S depth) ∅ r1
            end
      | "["%char :: r =>
          if (max_depth <? depth)%nat then Unsupported
          else
            match skip_ws r with
            | "]"%char :: r1 => Parsed (PList []) r1
            | r1 => read_elements n (S depth) [] r1
            end
      | "034"%char :: r =>
          match read_string [] r with
          | Parsed s r1 => Parsed (PStr s) r1
          | Malformed => Malformed
          | Unsupported => Unsupported
          end
      | "t"%char :: "r"%char :: "u"%char :: "e"%char :: r => Parsed (PBool true) r
      | "f"%char :: "a"%char :: "l"%char :: "s"%char :: "e"%char :: r => Parsed (PBool false) r
      | "n"%char :: "u"%char :: "l"%char :: "l"%char :: r => Parsed PNone r
      | "N"%char :: _ | "I"%char :: _ => Unsupported
      | _ => read_int l
      end
  end
with read_members (fuel depth : nat) (acc : gmap string pyval) (l : list ascii)
    {struct fuel} : parsed pyval :=
  match fuel with
  | O => Unsupported
  | S n =>
      match l with
      | "034"%char :: r =>
          match read_string [] r with
          | Parsed k r1 =>
              match skip_ws r1 with
              | ":"%char :: r2 =>
                  match read_value n depth (skip_ws r2) with
                  | Parsed v r3 =>
                      match skip_ws r3 with
                      | ","%char :: r4 => read_members n depth (<[k := v]> acc) (skip_ws r4)
                      | "}"%char :: r4 => Parsed (PDict (<[k := v]> acc)) r4
                      | _ => Malformed
                      end
                  | Malformed => Malformed
                  | Unsupported => Unsupported
                  end
              | _ => Malformed
              end
          | Malformed => Malformed
          | Unsupported => Unsupported
          end
      | _ => Malformed
      end
  end
with read_elements (fuel depth : nat) (acc : list pyval) (l : list ascii)
    {struct fuel} : parsed pyval :=
  match fuel with
  | O => Unsupported
  | S n =>
      match read_value n depth l with
      | Parsed v r1 =>
          match skip_ws r1 with
          | ","%char :: r2 => read_elements n depth (acc ++ [v]) (skip_ws r2)
          | "]"%char :: r2 => Parsed (PList (acc ++ [v])) r2
          | _ => Malformed
          end
      | Malformed => Malformed
      | Unsupported => Unsupported
      end
  end.

Definition loads (text : string) : result pyval :=
  let l := String.list_ascii_of_string text in
  match read_value (S (length l)) 0 (skip_ws l) with
  | Parsed v rest =>
      match skip_ws rest with
      | [] => Ok v
      | _ => Raise (JSONDecodeError "Extra data")
      end
  | Malformed => Raise (JSONDecodeError "Expecting value")
  | Unsupported => Raise (OtherException "NotImplementedError" "outside the fragment")
  end.

End Reference.

(** ** A concrete world for the worked examples

    A clock that hands out a list of readings, a store with an integer
    [timeout] column that refuses anything else, and a broker that follows a
    plan: the outcome of each [connect] and the content of each network
    session.  An exhausted plan means a reachable, silent broker. *)
Module Demo.

Record state : Type := {
  clock : list string;
  rows : list (gmap string pyval);
  connect_plan : list (result unit);
  session_plan : list session
}.

Definition utcnow (s : state) : string * state :=
  match clock s with
  | t :: later =>
      (t, {| clock := later; rows := rows s;
             connect_plan := connect_plan s; session_plan := session_plan s |})
  | [] => ("2024-12-03T23:59:59.999999", s)
  end.

Definition insert (table : string) (row : gmap string pyval) (s : state)
    : result unit * state :=
  match row !! "timeout" with
  | Some (PInt _) =>
      (Ok tt,
       {| clock := clock s; rows := rows s ++ [row];
          connect_plan := connect_plan s; session_plan := session_plan s |})
  | _ =>
      (Raise (OtherException "APIError" "invalid input syntax for type integer"), s)
  end.

Definition connect (host : string) (prt : Z) (s : state) : result unit * state :=
  match connect_plan s with
  | r :: rest =>
      (r, {| clock := clock s; rows := rows s;
             connect_plan := rest; session_plan := session_plan s |})
  | [] => (Ok tt, s)
  end.

Definition next_session (s : state) : session * state :=
  match session_plan s with
  | x :: rest =>
      (x, {| clock := clock s; rows := rows s;
             connect_plan := connect_plan s; session_plan := rest |})
  | [] => ({| deliveries := []; ending := Ok tt |}, s)
  end.

Definition world : World :=
  {| Sigma := state;
     utcnow_isoformat := utcnow;
     supabase_insert := insert;
     bytes_decode := Reference.decode;
     json_loads := Reference.loads;
     mqtt_connect := connect;
     mqtt_session := next_session;
     env_broker := "broker.local";
     env_port := 1883 |}.

Definition init : state :=
  {| clock := ["2024-12-03T10:00:01.000000"; "2024-12-03T10:00:02.000000";
               "2024-12-03T10:00:03.000000"];
     rows := []; connect_plan := []; session_plan := [] |}.

(** A later moment of the same world. *)
Definition later : state :=
  {| clock := ["2024-12-03T11:30:00.000000"];
     rows := []; connect_plan := []; session_plan := [] |}.

(** A text in which an apostrophe stands for the double quote. *)
Fixpoint requote (text : string) : string :=
  match text with
  | EmptyString => EmptyString
  | String c rest =>
      String (if Ascii.eqb c "'"%char then "034"%char else c) (requote rest)
  end.

Definition bytes_of (text : string) : list byte :=
  String.list_byte_of_string (requote text).

(** Scenario A of the specification: a complete data message. *)
Definition text_A : string :=
  "{'stream_id':'s1','frame_id':'f1','device_id':'d1','timestamp':'2024-12-03T10:00:00Z','timeout':30,'data':'QUJD'}".

Definition dict_A : gmap string pyval :=
  <["stream_id" := PStr "s1"]>
  (<["frame_id" := PStr "f1"]>
  (<["device_id" := PStr "d1"]>
  (<["timestamp" := PStr "2024-12-03T10:00:00Z"]>
  (<["timeout" := PInt 30]>
  (<["data" := PStr "QUJD"]> ∅))))).

Definition record_A (now : string) : StreamData :=
  {| stream_id := PStr "s1";
     frame_id := PStr "f1";
     device_id := PStr "d1";
     timestamp := PStr "2024-12-03T10:00:00Z";
     timeout := PInt 30;
     image_data := PStr "QUJD";
     metadata := PDict ∅;
     created_at := now |}.

(** Scenario B: [device_id], [timestamp], [timeout] and [data] are missing. *)
Definition text_B : string := "{'stream_id':'s1','frame_id':'f1'}".

Definition dict_B : gmap string pyval :=
  <["stream_id" := PStr "s1"]> (<["frame_id" := PStr "f1"]> ∅).

(** Scenario C: bytes that are not JSON; and bytes that are not UTF-8. *)
Definition text_C : string := "frame 17 of stream s1".

Definition not_utf8 : list byte := [xff; xfe; x7b; x7d].

(** All six keys present, none with the type the dataclass announces. *)
Definition text_odd : string :=
  "{'stream_id':1,'frame_id':null,'device_id':[],'timestamp':true,'timeout':'thirty','data':7,'metadata':null}".

Definition dict_odd : gmap string pyval :=
  <["stream_id" := PInt 1]>
  (<["frame_id" := PNone]>
  (<["device_id" := PList []]>
  (<["timestamp" := PBool true]>
  (<["timeout" := PStr "thirty"]>
  (<["data" := PInt 7]>
  (<["metadata" := PNone]> ∅)))))).

Definition record_odd (now : string) : StreamData :=
  {| stream_id := PInt 1;
     frame_id := PNone;
     device_id := PList [];
     timestamp := PBool true;
     timeout := PStr "thirty";
     image_data := PInt 7;
     metadata := PNone;
     created_at := now |}.

(** A debug message with a [meta] entry. *)
Definition text_debug : string := "{'meta':{'fps':30}}".

Definition dict_debug : gmap string pyval :=
  <["meta" := PDict (<["fps" := PInt 30]> ∅)]> ∅.

(** A JSON array on the data topic. *)
Definition text_array : string := "[1, 2, 3]".

Definition refused : exn := OtherException "ConnectionRefusedError" "[Errno 111] Connection refused".

(** A broker that refuses the first two connections and drops the third
    session after delivering two messages. *)
Definition flaky : state :=
  {| clock := ["2024-12-03T10:00:01.000000"];
     rows := [];
     connect_plan := [Raise refused; Raise refused; Ok tt];
     session_plan :=
       [{| deliveries := [OnConnect {| rc_value := 0 |};
                          OnMessage "device/data" (bytes_of text_C);
                          OnMessage "device/data" (bytes_of text_A)];
           ending := Raise (OtherException "OSError" "connection lost") |}] |}.

(** Deliveries none of which yields a stored row: bytes that are not
    JSON, bytes that are not UTF-8, an array, an object lacking fields, an
    object the store refuses, and a rejected connection. *)
Definition troubled : list callback :=
  [OnMessage "device/data" (bytes_of text_C);
   OnMessage "device/data" not_utf8;
   OnMessage "device/data" (bytes_of text_array);
   OnMessage "device/data" (bytes_of text_B);
   OnMessage "device/data" (bytes_of text_odd);
   OnConnect {| rc_value := 135 |}].

(** A broker that refuses the next [n] connections. *)
Definition unreachable (n : nat) : state :=
  {| clock := []; rows := [];
     connect_plan := replicate n (Raise refused);
     session_plan := [] |}.

End Demo.

(** ** Vocabulary of the specification *)

(** The keys a data message must carry, in the order the handler reads
    them. *)
Definition required_fields : list string :=
  ["stream_id"; "frame_id"; "device_id"; "timestamp"; "timeout"; "data"].

Definition missing (d : gmap string pyval) (key : string) : bool :=
  match d !! key with
  | Some _ => false
  | None => true
  end.

Definition first_missing (d : gmap string pyval) : option string :=
  List.find (missing d) required_fields.

(** Two records that differ at most in their creation time. *)
Definition same_but_created_at (r1 r2 : StreamData) : Prop :=
  stream_id r1 = stream_id r2 /\ frame_id r1 = frame_id r2
  /\ device_id r1 = device_id r2 /\ timestamp r1 = timestamp r2
  /\ timeout r1 = timeout r2 /\ image_data r1 = image_data r2
  /\ metadata r1 = metadata r2.

(** What [store_data] logs once the store has answered. *)
Definition store_report (data : StreamData) (answer : result unit) : list event :=
  match answer with
  | Ok _ =>
      [Log LINFO "Successfully stored frame %s for stream %s"
           [AVal (frame_id data); AVal (stream_id data)]]
  | Raise e => [Log LERROR "Error storing data: %s" [AExc e]; LogTraceback e]
  end.

Definition stored (answer : result unit) : bool :=
  match answer with
  | Ok _ => true
  | Raise _ => false
  end.

(** The log lines by which the message pipeline reports a message it
    could not use. *)
Definition rejection (ev : event) : bool :=
  match ev with
  | Log LERROR fmt _ =>
      String.eqb fmt "Missing required field in payload: %s"
      || String.eqb fmt "Error handling data message: %s"
      || String.eqb fmt "Failed to decode JSON message: %s"
      || String.eqb fmt "Error processing message: %s"
  | _ => false
  end.

(** The events a callback of the network loop can emit: it logs, builds
    records, inserts rows and subscribes; it never connects or sleeps. *)
Definition callback_event (ev : event) : Prop :=
  match ev with
  | Connect _ _ | LoopForever | Sleep _ => False
  | _ => True
  end.

(** *** What reaches the log

    [logging.basicConfig(level=logging.INFO)]: calls below [INFO] are
    discarded. *)
Definition enabled (lvl : level) : bool :=
  match lvl with
  | LDEBUG => false
  | LINFO | LERROR => true
  end.

(** The arguments [%d] can format: numbers.  A [str], [bytes], a list or
    a [ReasonCode] (which has neither [__int__] nor [__index__]) makes the
    [%] operator raise [TypeError]. *)
Definition is_number (a : logarg) : bool :=
  match a with
  | AInt _ | AVal (PInt _) | AVal (PBool _) | AVal (PFloat _) => true
  | _ => false
  end.

(** Whether [fmt % args] succeeds, for the directives the module uses:
    [%s] takes any argument, [%d] a number, and every argument must be
    used. *)
Fixpoint percent_formats (fmt : list ascii) (args : list logarg) : bool :=
  match fmt with
  | [] =>
      match args with
      | [] => true
      | _ :: _ => false
      end
  | "%"%char :: "s"%char :: rest =>
      match args with
      | _ :: more => percent_formats rest more
      | [] => false
      end
  | "%"%char :: "d"%char :: rest =>
      match args with
      | a :: more => is_number a && percent_formats rest more
      | [] => false
      end
  | "%"%char :: "%"%char :: rest => percent_formats rest args
  | "%"%char :: _ => false
  | _ :: rest => percent_formats rest args
  end.

(** [LogRecord.getMessage]: the message is formatted only when there are
    arguments. *)
Definition formats (fmt : string) (args : list logarg) : bool :=
  match args with
  | [] => true
  | _ :: _ => percent_formats (String.list_ascii_of_string fmt) args
  end.

(** A logging call writes a line when its level is enabled and its
    message formats.  When formatting raises, the handler reports the
    failure on [stderr] ([Handler.handleError]), the call returns and no
    line is written. *)
Definition line_written (ev : event) : bool :=
  match ev with
  | Log lvl fmt args => enabled lvl && formats fmt args
  | LogTraceback _ => true
  | _ => false
  end.

Definition lines_written (tr : list event) : list event :=
  List.filter line_written tr.

(** The exception with which decoding the bytes of a message fails. *)
Definition decode_failure {W : World} (raw : list byte) : option exn :=
  match bytes_decode raw with
  | Raise e => Some e
  | Ok text =>
      match json_loads text with
      | Raise e => Some e
      | Ok _ => None
      end
  end.

(** The exception with which a round of the supervisor started in world
    [s] fails: [connect] raises it, or the network loop ends with it. *)
Definition round_failure {W : World} (s : Sigma) : option exn :=
  match mqtt_connect env_broker env_port s with
  | (Raise e, _) => Some e
  | (Ok _, s1) =>
      match ending (fst (mqtt_session s1)) with
      | Raise e => Some e
      | Ok _ => None
      end
  end.

(** What the supervisor does with the exception that ended a round. *)
Definition retry_events (e : exn) : list event :=
  [Log LERROR "MQTT connection error: %s" [AExc e];
   LogTraceback e;
   Log LINFO "Retrying connection in 5 seconds..." [];
   Sleep 5].

(** A computation that comes back to its caller from every state. *)
Definition never_raises {Sigma A} (m : M Sigma A) : Prop :=
  forall s, returns (outcome (m s)).

(** A computation all of whose events satisfy [P]. *)
Definition emits {Sigma A} (P : event -> Prop) (m : M Sigma A) : Prop :=
  forall s, Forall P (trace (m s)).

(** ** Start-up: [_setup_environment], the constructors and [main]

    The rest of the module: how the bridge object comes to exist and what
    [main] does around [start]. *)

(** The collaborators of start-up, beside those of [World]. *)
Class Host (W : World) : Type := {
  (** [load_dotenv()]: reads the [.env] file into the process environment;
      it touches neither broker, store nor clock, and may raise (a file
      that cannot be read or decoded) *)
  load_dotenv : result unit;
  (** [os.getenv(var)], once [load_dotenv()] has run *)
  getenv : string -> option string;
  (** [create_client(url, key)] of the Supabase library *)
  create_client : string -> string -> Sigma -> result unit * Sigma;
  (** [int(text)] *)
  int_of_str : string -> result Z;
  (** [Path("logs").mkdir(exist_ok=True)] *)
  mkdir_logs : Sigma -> result unit * Sigma;
  (** [mqtt.Client(mqtt.CallbackAPIVersion.VERSION2)] with the two
      assignments and [enable_logger] that follow it: builds the client
      object without contacting the broker, and may raise *)
  mqtt_Client : result unit
}.

Definition RuntimeError (msg : string) : exn := OtherException "RuntimeError" msg.
Definition ValueError (msg : string) : exn := OtherException "ValueError" msg.

(** The exception raised by reading the local variable [logger] of [main]
    before it is assigned. *)
Definition UnboundLocalError_logger : exn :=
  OtherException "UnboundLocalError"
    "cannot access local variable 'logger' where it is not associated with a value".

Definition required_vars : list string :=
  ["SUPABASE_URL"; "SUPABASE_KEY"; "MQTT_BROKER"; "MQTT_PORT"].

(** [not value] for a [str]: the empty string is false. *)
Definition str_is_empty (text : string) : bool := String.eqb text "".

(** [self._env[key]] *)
Definition env_item (env : gmap string string) (key : string) : result string :=
  match env !! key with
  | Some v => Ok v
  | None => Raise (KeyError key)
  end.

(** The bridge object built from a configuration: the world in which its
    methods run reads the broker address and port from that
    configuration. *)
Definition bridge_world (W : World) (cfg : MQTTConfig) : World :=
  {| Sigma := @Sigma W;
     utcnow_isoformat := @utcnow_isoformat W;
     supabase_insert := @supabase_insert W;
     bytes_decode := @bytes_decode W;
     json_loads := @json_loads W;
     mqtt_connect := @mqtt_connect W;
     mqtt_session := @mqtt_session W;
     env_broker := broker cfg;
     env_port := port cfg |}.

(** How the process stands: still inside [start], or gone through
    [sys.exit(code)]. *)
Inductive exit_status : Type :=
| Running
| Exited (code : Z).

(** Run a computation and hand its outcome, value or exception, to what
    follows. *)
Definition attempt {Sigma A} (m : M Sigma A) : M Sigma (result A) :=
  fun s => let '(r, s1, t1) := m s in (Ok r, s1, t1).

Section Startup.
Context {W : World} {H : Host W}.
Local Open Scope py_scope.

Local Abbreviation Py := (M Sigma).

(** *** [MQTTBridge._setup_environment]

    The loop over [required_vars]; [env] is [self._env] so far. *)
Fixpoint setup_from (vars : list string) (env : gmap string string)
    : result (gmap string string) :=
  match vars with
  | [] => Ok env
  | var :: rest =>
      match getenv var with
      | Some v =>
          if str_is_empty v
          then Raise (RuntimeError ("Missing required environment variable: " +:+ var))
          else setup_from rest (<[var := v]> env)
      | None => Raise (RuntimeError ("Missing required environment variable: " +:+ var))
      end
  end.

Definition _setup_environment : result (gmap string string) :=
  setup_from required_vars ∅.

(** *** [DatabaseManager.__init__] *)
Definition DatabaseManager_init (url key : string) : Py unit :=
  if str_is_empty url || str_is_empty key
  then lift (Raise (ValueError "Supabase URL and key must be provided"))
  else
    try_except
      (call (create_client url key) ;;
       log LINFO "Successfully connected to Supabase" [])
      [(ExceptionC, fun e =>
          log LERROR "Failed to connect to Supabase: %s" [AExc e] ;;
          lift (Raise (RuntimeError "Failed to initialize database connection")))].

(** *** [MQTTBridge._setup_mqtt_client]

    Creates the client and registers [_on_connect] and [_on_message], the
    callbacks [dispatch] runs. *)
Definition _setup_mqtt_client : Py unit :=
  lift mqtt_Client.

(** *** [MQTTBridge.__init__]

    The value is the configuration the object keeps. *)
Definition MQTTBridge_init : Py MQTTConfig :=
  lift load_dotenv ;;
  _env <- lift _setup_environment ;;
  url <- lift (env_item _env "SUPABASE_URL") ;;
  key <- lift (env_item _env "SUPABASE_KEY") ;;
  DatabaseManager_init url key ;;
  v_broker <- lift (env_item _env "MQTT_BROKER") ;;
  port_text <- lift (env_item _env "MQTT_PORT") ;;
  v_port <- lift (int_of_str port_text) ;;
  let cfg := {| broker := v_broker;
                port := v_port;
                topics := (fun topic => (value topic, 1%Z)) <$> TopicType_members |} in
  _setup_mqtt_client ;;
  ret cfg.

(** *** [main]

    One [try] covers the whole body, but its [except Exception] clause
    reads the local [logger], which is bound only once [mkdir] has
    returned.  [main n] follows [start] for [n] rounds. *)
Definition main_on_exception (logger_bound : bool) (e : exn) : Py exit_status :=
  if logger_bound
  then
    log LERROR "Fatal error: %s" [AExc e] ;;
    emit (LogTraceback e) ;;
    ret (Exited 1)
  else lift (Raise UnboundLocalError_logger).

Definition main (rounds : nat) : Py exit_status :=
  made <- attempt (call mkdir_logs) ;;
  match made with
  | Raise e => main_on_exception false e
  | Ok _ =>
      try_except
        (log LINFO "Starting MQTT Bridge service..." [] ;;
         cfg <- MQTTBridge_init ;;
         @start (bridge_world W cfg) rounds ;;
         ret Running)
        [(ExceptionC, main_on_exception true)]
  end.

End Startup.

(** A reader of decimal integers for the worked examples: an optional
    sign and ASCII digits.  Text with blanks, underscores or characters
    outside ASCII, which [int] treats in ways not modelled here, is answered
    with [NotImplementedError]. *)
Module DemoHost.

Definition plain (c : ascii) : bool :=
  let n := Ascii.N_of_ascii c in
  ((33 <=? n) && (n <=? 126) && negb (n =? 95))%N.

Definition int_of_text (text : string) : result Z :=
  let l := String.list_ascii_of_string text in
  if negb (forallb plain l) || (4300 <? length l)%nat
  then Raise (OtherException "NotImplementedError" "outside the fragment")
  else
    let bad := Raise (ValueError ("invalid literal for int() with base 10: '" +:+ text +:+ "'")) in
    let '(neg, digits) :=
      match l with
      | "-"%char :: r => (true, r)
      | "+"%char :: r => (false, r)
      | _ => (false, l)
      end in
    match digits with
    | [] => bad
    | _ =>
        match Reference.read_digits 0 digits with
        | (n, []) => Ok (if neg then - n else n)%Z
        | _ => bad
        end
    end.

(** A process environment, a Supabase project that knows one key, and a
    working directory that is writable or not. *)
Definition host (environ : gmap string string) (writable : bool) : Host Demo.world :=
  {| load_dotenv := Ok tt;
     mqtt_Client := Ok tt;
     getenv := fun var => environ !! var;
     create_client := fun url key s =>
       if String.eqb key "service-key" then (Ok tt, s)
       else (Raise (OtherException "AuthApiError" "Invalid API key"), s);
     int_of_str := int_of_text;
     mkdir_logs := fun s =>
       if writable then (Ok tt, s)
       else (Raise (OtherException "PermissionError" "[Errno 13] Permission denied: 'logs'"), s) |}.

(** The same host with a complete environment, where reading [.env] or
    creating the paho client ends as given. *)
Definition host_where (dotenv client : result unit) : Host Demo.world :=
  {| load_dotenv := dotenv;
     mqtt_Client := client;
     getenv := fun var =>
       (<["SUPABASE_URL" := "https://project.supabase.co"]>
        (<["SUPABASE_KEY" := "service-key"]>
        (<["MQTT_BROKER" := "broker.local"]>
        (<["MQTT_PORT" := "1883"]> (∅ : gmap string string))))) !! var;
     create_client := fun url key s => (Ok tt, s);
     int_of_str := int_of_text;
     mkdir_logs := fun s => (Ok tt, s) |}.

Definition environ_ok : gmap string string :=
  <["SUPABASE_URL" := "https://project.supabase.co"]>
  (<["SUPABASE_KEY" := "service-key"]>
  (<["MQTT_BROKER" := "broker.local"]>
  (<["MQTT_PORT" := "1883"]> ∅))).

(** The broker variable is set but empty. *)
Definition environ_empty_broker : gmap string string :=
  <["MQTT_BROKER" := ""]> environ_ok.

Definition environ_bad_key : gmap string string :=
  <["SUPABASE_KEY" := "stale-key"]> environ_ok.

Definition environ_bad_port : gmap string string :=
  <["MQTT_PORT" := "mqtt"]> environ_ok.

Definition config_ok : MQTTConfig :=
  {| broker := "broker.local";
     port := 1883;
     topics := [("device/data", 1%Z); ("device/debug", 1%Z)] |}.

(** A broker that accepts the connection, delivers two callbacks and
    closes the session without error. *)
Definition calm : Demo.state :=
  {| Demo.clock := ["2024-12-03T10:00:01.000000"];
     Demo.rows := [];
     Demo.connect_plan := [];
     Demo.session_plan :=
       [{| deliveries := [OnConnect {| rc_value := 0 |};
                          OnMessage "device/data" (Demo.bytes_of Demo.text_A)];
           ending := Ok tt |}] |}.

(** Deliveries none of which builds a record. *)
Definition fruitless : list callback :=
  [OnMessage "device/data" (Demo.bytes_of Demo.text_C);
   OnMessage "device/data" Demo.not_utf8;
   OnMessage "device/data" (Demo.bytes_of Demo.text_array);
   OnMessage "device/data" (Demo.bytes_of Demo.text_B);
   OnMessage "device/debug" (Demo.bytes_of Demo.text_debug);
   OnMessage "device/status" (Demo.bytes_of Demo.text_A);
   OnConnect {| rc_value := 135 |};
   OnConnect {| rc_value := 0 |}].

End DemoHost.

(** The first required variable that is unset or empty. *)
Definition unset {W : World} {H : Host W} (var : string) : bool :=
  match getenv var with
  | Some v => str_is_empty v
  | None => true
  end.

Definition first_unset {W : World} {H : Host W} : option string :=
  List.find unset required_vars.

(** The rounds among the first [n] of [start] that failed. *)
Fixpoint failures {W : World} (n : nat) (s : Sigma) : nat :=
  match n with
  | O => O
  | S k =>
      (failures k s
       + match round_failure (world (start k s)) with
         | Some _ => 1
         | None => 0
         end)%nat
  end.

(** A successful connect acknowledgment. *)
Definition is_success_ack (cb : callback) : bool :=
  match cb with
  | OnConnect rc => (rc_value rc =? 0)%Z
  | OnMessage _ _ => false
  end.

(** Anything but a subscription. *)
Definition not_subscribe (ev : event) : Prop :=
  match ev with
  | Subscribe _ => False
  | _ => True
  end.

(** ** Reading traces *)

Lemma records_built_app tr1 tr2 :
  records_built (tr1 ++ tr2) = records_built tr1 ++ records_built tr2.
Proof. apply omap_app. Qed.

Lemma rows_inserted_app tr1 tr2 :
  rows_inserted (tr1 ++ tr2) = rows_inserted tr1 ++ rows_inserted tr2.
Proof. apply omap_app. Qed.

Lemma records_built_log lvl fmt args tr :
  records_built (Log lvl fmt args :: tr) = records_built tr.
Proof. reflexivity. Qed.

Lemma rows_inserted_log lvl fmt args tr :
  rows_inserted (Log lvl fmt args :: tr) = rows_inserted tr.
Proof. reflexivity. Qed.

Lemma trace_of_triple {Sigma A} (r : result A) (s : Sigma) (tr : list event) :
  trace (r, s, tr) = tr.
Proof. reflexivity. Qed.

(** ** Laws of the effect monad *)

Section MonadLaws.
Context {Sigma : Type}.
Local Open Scope py_scope.

Lemma returns_unit (r : result unit) : returns r -> r = Ok tt.
Proof. destruct r as [[]|e]; simpl; [reflexivity | tauto]. Qed.

Lemma bind_ok {A B} (m : M Sigma A) (k : A -> M Sigma B) s a s1 t1 :
  m s = (Ok a, s1, t1) ->
  bind m k s = (outcome (k a s1), world (k a s1), t1 ++ trace (k a s1)).
Proof.
  intros Hm. unfold bind. rewrite Hm.
  destruct (k a s1) as [[r s2] t2]. reflexivity.
Qed.

Lemma bind_raise {A B} (m : M Sigma A) (k : A -> M Sigma B) s e s1 t1 :
  m s = (Raise e, s1, t1) -> bind m k s = (Raise e, s1, t1).
Proof. intros Hm. unfold bind. rewrite Hm. reflexivity. Qed.

Lemma never_raises_ret {A} (a : A) : never_raises (@ret Sigma A a).
Proof. intros s. exact I. Qed.

Lemma never_raises_emit ev : never_raises (@emit Sigma ev).
Proof. intros s. exact I. Qed.

Lemma never_raises_bind {A B} (m : M Sigma A) (k : A -> M Sigma B) :
  never_raises m -> (forall a, never_raises (k a)) -> never_raises (bind m k).
Proof.
  intros Hm Hk s. unfold bind.
  specialize (Hm s). destruct (m s) as [[[a|e] s1] t1]; simpl in Hm; [|tauto].
  specialize (Hk a s1). destruct (k a s1) as [[r s2] t2]. exact Hk.
Qed.

Lemma never_raises_bind_unit {A} (m : M Sigma unit) (k : M Sigma A) :
  never_raises m -> never_raises k -> never_raises (m ;; k).
Proof. intros Hm Hk. apply never_raises_bind; [exact Hm | intros _; exact Hk]. Qed.

(** A [try] in which some clause matches every exception and whose
    handlers all return lets nothing escape, whatever the body does. *)
Lemma try_except_never_raises {A} (body : M Sigma A) handlers :
  (forall e, is_Some (List.find (fun h => isinstance e (fst h)) handlers)) ->
  Forall (fun h => forall e, never_raises (snd h e)) handlers ->
  never_raises (try_except body handlers).
Proof.
  intros Hfind Hall s. unfold try_except.
  destruct (body s) as [[[a|e] s1] t1]; [exact I|].
  destruct (Hfind e) as [h Hh]. rewrite Hh.
  apply find_some in Hh as [Hin _]. apply list_elem_of_In in Hin.
  rewrite Forall_forall in Hall. specialize (Hall h Hin e s1).
  destruct (snd h e s1) as [[r s2] t2]. exact Hall.
Qed.

Lemma never_raises_for_each {A} (f : A -> M Sigma unit) xs :
  (forall x, never_raises (f x)) -> never_raises (for_each f xs).
Proof.
  intros Hf. induction xs as [|x rest IH]; simpl.
  - apply never_raises_ret.
  - apply never_raises_bind_unit; [apply Hf | exact IH].
Qed.

Lemma emits_ret {A} P (a : A) : emits P (@ret Sigma A a).
Proof. intros s. constructor. Qed.

Lemma emits_lift {A} P (r : result A) : emits P (@lift Sigma A r).
Proof. intros s. constructor. Qed.

Lemma emits_call {A} P (f : Sigma -> result A * Sigma) : emits P (call f).
Proof. intros s. unfold call. destruct (f s). constructor. Qed.

Lemma emits_emit (P : event -> Prop) ev : P ev -> emits P (@emit Sigma ev).
Proof. intros H s. repeat constructor. exact H. Qed.

Lemma emits_bind {A B} P (m : M Sigma A) (k : A -> M Sigma B) :
  emits P m -> (forall a, emits P (k a)) -> emits P (bind m k).
Proof.
  intros Hm Hk s. unfold bind.
  specialize (Hm s). destruct (m s) as [[[a|e] s1] t1]; simpl in *; [|exact Hm].
  specialize (Hk a s1). destruct (k a s1) as [[r s2] t2]; simpl in *.
  apply Forall_app. split; assumption.
Qed.

Lemma emits_try_except {A} P (body : M Sigma A) handlers :
  emits P body ->
  Forall (fun h => forall e, emits P (snd h e)) handlers ->
  emits P (try_except body handlers).
Proof.
  intros Hb Hall s. unfold try_except.
  specialize (Hb s). destruct (body s) as [[[a|e] s1] t1]; simpl in *; [exact Hb|].
  destruct (List.find _ handlers) as [h|] eqn:Hh; [|exact Hb].
  apply find_some in Hh as [Hin _]. apply list_elem_of_In in Hin.
  rewrite Forall_forall in Hall. specialize (Hall h Hin e s1).
  destruct (snd h e s1) as [[r s2] t2]; simpl in *.
  apply Forall_app. split; assumption.
Qed.

Lemma emits_for_each {A} P (f : A -> M Sigma unit) xs :
  (forall x, emits P (f x)) -> emits P (for_each f xs).
Proof.
  intros Hf. induction xs as [|x rest IH]; simpl.
  - apply emits_ret.
  - apply emits_bind; [apply Hf | intros _; exact IH].
Qed.

(** Running a list of callbacks splits at any point: the second part
    starts in the world the first part leaves behind. *)
Lemma for_each_app {A} (f : A -> M Sigma unit) xs ys s :
  (forall x, never_raises (f x)) ->
  for_each f (xs ++ ys) s =
    (outcome (for_each f ys (world (for_each f xs s))),
     world (for_each f ys (world (for_each f xs s))),
     trace (for_each f xs s) ++ trace (for_each f ys (world (for_each f xs s)))).
Proof.
  intros Hf. revert s. induction xs as [|x rest IH]; intros s; simpl.
  - unfold ret, outcome, world, trace; simpl.
    destruct (for_each f ys s) as [[r s1] t1]. reflexivity.
  - unfold bind. pose proof (Hf x s) as Hx.
    destruct (f x s) as [[[[]|e] s1] t1]; simpl in Hx; [|tauto].
    rewrite IH. unfold outcome, world, trace; simpl.
    destruct (for_each f rest s1) as [[r2 s2] t2]; simpl.
    destruct (for_each f ys s2) as [[r3 s3] t3]; simpl.
    rewrite app_assoc. reflexivity.
Qed.

Lemma for_each_snoc_trace {A} (f : A -> M Sigma unit) xs x s :
  (forall x, never_raises (f x)) ->
  trace (for_each f (xs ++ [x]) s) =
    trace (for_each f xs s) ++ trace (f x (world (for_each f xs s))).
Proof.
  intros Hf. rewrite (for_each_app f xs [x] s Hf).
  generalize (world (for_each f xs s)). intros s1.
  unfold trace at 1. simpl. f_equal.
  unfold bind, ret, trace.
  destruct (f x s1) as [[[[]|e] s2] t2]; simpl; rewrite ?app_nil_r; reflexivity.
Qed.

End MonadLaws.

(** ** Facts about the bridge *)

Section Properties.
Context {W : World}.
Local Open Scope py_scope.

Ltac unfold_py :=
  unfold try_except, bind, lift, call, log, emit, ret, outcome, world, trace.

(** *** Storage gateway *)

Lemma store_data_run (data : StreamData) (s : Sigma) :
  store_data data s =
    (Ok (stored (fst (supabase_insert "stream_data" (asdict data) s))),
     snd (supabase_insert "stream_data" (asdict data) s),
     DbInsert "stream_data" (asdict data)
       :: store_report data (fst (supabase_insert "stream_data" (asdict data) s))).
Proof.
  unfold store_data. unfold_py.
  destruct (supabase_insert "stream_data" (asdict data) s) as [[[]|e] s1];
    reflexivity.
Qed.

Lemma store_data_never_raises data : never_raises (store_data data).
Proof. intros s. rewrite store_data_run. exact I. Qed.

(** *** Building the record *)

Lemma new_StreamData_present d s v1 v2 v3 v4 v5 v6 :
  d !! "stream_id" = Some v1 -> d !! "frame_id" = Some v2 ->
  d !! "device_id" = Some v3 -> d !! "timestamp" = Some v4 ->
  d !! "timeout" = Some v5 -> d !! "data" = Some v6 ->
  let r := {| stream_id := v1; frame_id := v2; device_id := v3;
              timestamp := v4; timeout := v5; image_data := v6;
              metadata := default (PDict ∅) (d !! "metadata");
              created_at := fst (utcnow_isoformat s) |} in
  new_StreamData (PDict d) s = (Ok r, snd (utcnow_isoformat s), [New r]).
Proof.
  intros H1 H2 H3 H4 H5 H6. unfold new_StreamData, getitem, dict_get. unfold_py.
  rewrite H1, H2, H3, H4, H5, H6.
  destruct (utcnow_isoformat s) as [now s1]. reflexivity.
Qed.

Lemma new_StreamData_missing d s k :
  first_missing d = Some k ->
  new_StreamData (PDict d) s = (Raise (KeyError k), s, []).
Proof.
  unfold first_missing, required_fields, missing, new_StreamData, getitem.
  unfold_py. simpl.
  repeat (match goal with
          | |- context [d !! ?key] => destruct (d !! key)
          end; simpl; try (intros [= <-]; reflexivity)).
Qed.

Lemma first_missing_None d :
  first_missing d = None ->
  exists v1 v2 v3 v4 v5 v6,
    d !! "stream_id" = Some v1 /\ d !! "frame_id" = Some v2
    /\ d !! "device_id" = Some v3 /\ d !! "timestamp" = Some v4
    /\ d !! "timeout" = Some v5 /\ d !! "data" = Some v6.
Proof.
  unfold first_missing, required_fields, missing. simpl.
  repeat (match goal with
          | |- context [d !! ?key] => destruct (d !! key)
          end; simpl; try discriminate).
  intros _. eauto 12.
Qed.

Lemma first_missing_Some d k :
  first_missing d = Some k -> k ∈ required_fields /\ d !! k = None.
Proof.
  intros H. apply find_some in H as [Hin Hm]. split.
  - apply list_elem_of_In. exact Hin.
  - unfold missing in Hm. destruct (d !! k); [discriminate | reflexivity].
Qed.

Lemma missing_first_missing d k :
  k ∈ required_fields -> d !! k = None -> is_Some (first_missing d).
Proof.
  intros Hin Hk. destruct (first_missing d) as [k'|] eqn:E; [eauto|].
  apply list_elem_of_In in Hin.
  pose proof (find_none _ _ E k Hin) as Hno.
  unfold missing in Hno. rewrite Hk in Hno. discriminate.
Qed.

(** *** The data handler *)

Lemma handle_data_present d s v1 v2 v3 v4 v5 v6 :
  d !! "stream_id" = Some v1 -> d !! "frame_id" = Some v2 ->
  d !! "device_id" = Some v3 -> d !! "timestamp" = Some v4 ->
  d !! "timeout" = Some v5 -> d !! "data" = Some v6 ->
  let r := {| stream_id := v1; frame_id := v2; device_id := v3;
              timestamp := v4; timeout := v5; image_data := v6;
              metadata := default (PDict ∅) (d !! "metadata");
              created_at := fst (utcnow_isoformat s) |} in
  let after := supabase_insert "stream_data" (asdict r) (snd (utcnow_isoformat s)) in
  _handle_data_message (PDict d) s =
    (Ok tt, snd after,
     New r :: DbInsert "stream_data" (asdict r) :: store_report r (fst after)
       ++ (if stored (fst after)
           then [Log LINFO "Successfully processed frame %s" [AVal v2]]
           else [])).
Proof.
  intros H1 H2 H3 H4 H5 H6 r after.
  unfold _handle_data_message, try_except.
  rewrite (bind_ok _ _ _ _ _ _ (new_StreamData_present d s _ _ _ _ _ _ H1 H2 H3 H4 H5 H6)).
  fold r.
  rewrite (bind_ok _ _ _ _ _ _ (store_data_run r _)). fold after.
  unfold outcome, world, trace, log, emit, ret.
  destruct (fst after) as [[]|e]; reflexivity.
Qed.

Lemma handle_data_missing d s k :
  first_missing d = Some k ->
  _handle_data_message (PDict d) s =
    (Ok tt, s, [Log LERROR "Missing required field in payload: %s" [AExc (KeyError k)]]).
Proof.
  intros Hk. unfold _handle_data_message, try_except.
  rewrite (bind_raise _ _ _ _ _ _ (new_StreamData_missing d s k Hk)).
  reflexivity.
Qed.

(** A payload that is valid JSON but not an object cannot be subscripted
    by a key: the handler reports the [TypeError]. *)
Lemma handle_data_not_dict v s :
  (forall d, v <> PDict d) ->
  exists msg,
    _handle_data_message v s =
      (Ok tt, s, [Log LERROR "Error handling data message: %s" [AExc (TypeError msg)]]).
Proof.
  intros Hv. destruct v; try (eexists; reflexivity).
  exfalso. eapply Hv. reflexivity.
Qed.

Lemma handle_data_never_raises payload : never_raises (_handle_data_message payload).
Proof.
  apply try_except_never_raises.
  - intros e. destruct e; simpl; eexists; reflexivity.
  - repeat constructor; intros e; apply never_raises_emit.
Qed.

Lemma handle_debug_run payload s :
  _handle_debug_message payload s =
    match payload with
    | PDict d => (Ok tt, s, [Log LDEBUG "Debug data: %s" [AVal (default (PDict ∅) (d !! "meta"))]])
    | v => (Raise (AttributeError ("'" +:+ type_name v +:+ "' object has no attribute 'get'")), s, [])
    end.
Proof. destruct payload; reflexivity. Qed.

(** *** The message callback *)

Lemma on_message_never_raises topic raw : never_raises (_on_message topic raw).
Proof.
  apply try_except_never_raises.
  - intros e. destruct e; simpl; eexists; reflexivity.
  - repeat constructor; intros e;
      apply never_raises_bind_unit; apply never_raises_emit.
Qed.

Lemma on_message_undecodable topic raw s e :
  decode_failure raw = Some e ->
  _on_message topic raw s =
    (Ok tt, s,
     Log LDEBUG "Received message on topic: %s" [AStr topic]
       :: (if isinstance e JSONDecodeErrorC
           then [Log LERROR "Failed to decode JSON message: %s" [AExc e];
                 Log LDEBUG "Raw message: %s" [ABytes raw]]
           else [Log LERROR "Error processing message: %s" [AExc e];
                 LogTraceback e])).
Proof.
  unfold decode_failure, _on_message. unfold_py.
  destruct (bytes_decode raw) as [text|e1]; [destruct (json_loads text) as [v|e1]|];
    intros [= <-]; destruct e1; reflexivity.
Qed.

Lemma on_message_data raw text payload s :
  bytes_decode raw = Ok text -> json_loads text = Ok payload ->
  _on_message (value DATA) raw s =
    (Ok tt, world (_handle_data_message payload s),
     Log LDEBUG "Received message on topic: %s" [AStr (value DATA)]
       :: trace (_handle_data_message payload s)).
Proof.
  intros Hd Hj. pose proof (handle_data_never_raises payload s) as Hret.
  unfold _on_message. unfold_py. rewrite Hd, Hj. simpl.
  destruct (_handle_data_message payload s) as [[[[]|e] s1] t1];
    simpl in *; [reflexivity | tauto].
Qed.

Lemma on_message_debug raw text payload s :
  bytes_decode raw = Ok text -> json_loads text = Ok payload ->
  _on_message (value DEBUG) raw s =
    (Ok tt, s,
     Log LDEBUG "Received message on topic: %s" [AStr (value DEBUG)]
       :: match outcome (_handle_debug_message payload s) with
          | Ok _ => trace (_handle_debug_message payload s)
          | Raise e => [Log LERROR "Error processing message: %s" [AExc e];
                        LogTraceback e]
          end).
Proof.
  intros Hd Hj. unfold _on_message. unfold_py. rewrite Hd, Hj. simpl.
  rewrite handle_debug_run. destruct payload; reflexivity.
Qed.

(** *** What the callbacks emit *)

Ltac callback_events :=
  repeat first
    [ apply emits_ret | apply emits_lift | apply emits_call
    | apply emits_emit; exact I
    | apply emits_bind; [|intros ?]
    | apply emits_try_except
    | match goal with
      | |- Forall _ (_ :: _) => constructor; [intros ?|]
      | |- Forall _ [] => constructor
      end
    | match goal with |- emits _ (if ?b then _ else _) => destruct b end ].

Lemma store_data_emits data : emits callback_event (store_data data).
Proof. unfold store_data, log. callback_events. Qed.

Lemma handle_data_emits payload : emits callback_event (_handle_data_message payload).
Proof.
  unfold _handle_data_message, new_StreamData, log. callback_events.
Qed.

Lemma on_message_emits topic raw : emits callback_event (_on_message topic raw).
Proof.
  unfold _on_message, _handle_debug_message, log. callback_events.
Qed.

Lemma on_connect_emits rc : emits callback_event (_on_connect rc).
Proof. unfold _on_connect, log. callback_events. Qed.

Lemma dispatch_emits cb : emits callback_event (dispatch cb).
Proof. destruct cb; [apply on_connect_emits | apply on_message_emits]. Qed.

Lemma dispatch_never_raises cb : never_raises (dispatch cb).
Proof.
  destruct cb as [rc|topic raw]; [|apply on_message_never_raises].
  intros s. simpl. unfold _on_connect. destruct (rc_value rc =? 0)%Z; exact I.
Qed.

Lemma callback_events_quiet tr :
  Forall callback_event tr -> connects tr = [] /\ sleeps tr = [].
Proof.
  induction 1 as [|ev tr Hev _ [IHc IHs]]; [split; reflexivity|].
  unfold connects, sleeps in *.
  destruct ev; simpl in Hev; try tauto; simpl; rewrite ?IHc, ?IHs;
    split; reflexivity.
Qed.

(** *** The supervisor *)

Lemma loop_forever_run s :
  let sess := fst (mqtt_session s) in
  let served := for_each dispatch (deliveries sess) (snd (mqtt_session s)) in
  loop_forever s = (ending sess, world served, LoopForever :: trace served).
Proof.
  unfold loop_forever. unfold_py.
  destruct (mqtt_session s) as [sess s1]. simpl.
  pose proof (never_raises_for_each dispatch (deliveries sess) dispatch_never_raises s1)
    as Hret.
  destruct (for_each dispatch (deliveries sess) s1) as [[[[]|e] s2] t2];
    simpl in *; [|tauto].
  rewrite app_nil_r. reflexivity.
Qed.

Lemma loop_forever_quiet s :
  connects (trace (loop_forever s)) = [] /\ sleeps (trace (loop_forever s)) = [].
Proof.
  rewrite loop_forever_run. simpl.
  apply (callback_events_quiet
           (trace (for_each dispatch (deliveries (fst (mqtt_session s)))
                     (snd (mqtt_session s))))).
  apply emits_for_each. apply dispatch_emits.
Qed.

(** One round: the connect attempt, what happens while the loop runs,
    and the retry epilogue if the round failed. *)
Lemma start_round_shape s :
  exists during,
    connects during = [] /\ sleeps during = []
    /\ outcome (start_round s) = Ok tt
    /\ trace (start_round s) =
         Log LINFO "Connecting to MQTT broker at %s:%d" [AStr env_broker; AInt env_port]
           :: Connect env_broker env_port
           :: during
           ++ match round_failure s with
              | Some e => retry_events e
              | None => []
              end.
Proof.
  pose proof (loop_forever_quiet) as Hquiet.
  unfold start_round, round_failure. unfold_py. simpl.
  destruct (mqtt_connect env_broker env_port s) as [[[]|e] s1]; simpl.
  - specialize (Hquiet s1). destruct Hquiet as [Hc Hs].
    rewrite loop_forever_run in *. simpl in *.
    exists (Log LINFO "Starting MQTT loop..." []
              :: LoopForever
              :: trace (for_each dispatch (deliveries (fst (mqtt_session s1)))
                          (snd (mqtt_session s1)))).
    destruct (ending (fst (mqtt_session s1))) as [[]|e]; simpl;
      rewrite ?app_nil_r; repeat split; assumption || reflexivity.
  - exists []. repeat split; reflexivity.
Qed.

Lemma start_round_never_raises : never_raises start_round.
Proof.
  intros s. destruct (start_round_shape s) as (during & _ & _ & Hret & _).
  rewrite Hret. exact I.
Qed.

Lemma start_never_raises n : never_raises (start n).
Proof.
  induction n as [|n IH]; simpl.
  - apply never_raises_ret.
  - apply never_raises_bind_unit; [apply start_round_never_raises | exact IH].
Qed.

(** [start (S n)] is [start n] followed by one more round. *)
Lemma start_succ n s :
  start (S n) s =
    (outcome (start_round (world (start n s))),
     world (start_round (world (start n s))),
     trace (start n s) ++ trace (start_round (world (start n s)))).
Proof.
  revert s. induction n as [|n IH]; intros s.
  - change (start 1 s) with (bind start_round (fun _ => ret tt) s).
    change (start 0 s) with (@ret Sigma unit tt s).
    unfold bind, ret, outcome, world, trace. simpl.
    destruct (start_round s) as [[[[]|e] s1] t1]; simpl;
      rewrite ?app_nil_r; reflexivity.
  - change (start (S (S n)) s) with (bind start_round (fun _ => start (S n)) s).
    change (start (S n) s) with (bind start_round (fun _ => start n) s).
    unfold bind. pose proof (start_round_never_raises s) as Hret.
    destruct (start_round s) as [[[[]|e] s1] t1]; simpl in Hret; [|tauto].
    rewrite IH. unfold outcome, world, trace.
    destruct (start n s1) as [[r2 s2] t2]; simpl.
    destruct (start_round s2) as [[r3 s3] t3]; simpl.
    rewrite app_assoc. reflexivity.
Qed.

Lemma start_connects n s :
  connects (trace (start n s)) = replicate n (env_broker, env_port).
Proof.
  induction n as [|n IH]; [reflexivity|].
  rewrite start_succ, replicate_S_end. simpl.
  destruct (start_round_shape (world (start n s))) as (during & Hc & _ & _ & Htr).
  rewrite Htr. unfold connects in *. rewrite omap_app, IH. simpl.
  rewrite omap_app, Hc. simpl.
  destruct (round_failure (world (start n s))); reflexivity.
Qed.


(** *** Summaries used by the main theorems *)

Lemma decode_failure_None raw :
  decode_failure raw = None ->
  exists text payload, bytes_decode raw = Ok text /\ json_loads text = Ok payload.
Proof.
  unfold decode_failure.
  destruct (bytes_decode raw) as [text|e]; [|discriminate].
  destruct (json_loads text) as [payload|e] eqn:Hj; [|discriminate].
  intros _. exists text, payload. split; [reflexivity | exact Hj].
Qed.

Lemma handle_data_present_summary d s v1 v2 v3 v4 v5 v6 :
  d !! "stream_id" = Some v1 -> d !! "frame_id" = Some v2 ->
  d !! "device_id" = Some v3 -> d !! "timestamp" = Some v4 ->
  d !! "timeout" = Some v5 -> d !! "data" = Some v6 ->
  let r := {| stream_id := v1; frame_id := v2; device_id := v3;
              timestamp := v4; timeout := v5; image_data := v6;
              metadata := default (PDict ∅) (d !! "metadata");
              created_at := fst (utcnow_isoformat s) |} in
  records_built (trace (_handle_data_message (PDict d) s)) = [r]
  /\ rows_inserted (trace (_handle_data_message (PDict d) s)) = [asdict r]
  /\ existsb rejection (trace (_handle_data_message (PDict d) s)) = false.
Proof.
  intros H1 H2 H3 H4 H5 H6 r.
  rewrite (handle_data_present d s _ _ _ _ _ _ H1 H2 H3 H4 H5 H6). fold r.
  destruct (fst (supabase_insert "stream_data" (asdict r) (snd (utcnow_isoformat s))))
    as [[]|e]; repeat split; reflexivity.
Qed.

(** A data message that does not yield a record leaves no trace of one. *)
Lemma handle_data_rejected_summary payload s :
  match payload with
  | PDict d => is_Some (first_missing d)
  | _ => True
  end ->
  world (_handle_data_message payload s) = s
  /\ records_built (trace (_handle_data_message payload s)) = []
  /\ rows_inserted (trace (_handle_data_message payload s)) = [].
Proof.
  intros Hp.
  assert (exists ev, _handle_data_message payload s = (Ok tt, s, [Log LERROR (fst ev) (snd ev)]))
    as [ev Hev].
  { destruct payload as [| | | | | |d];
      try (match goal with
           | |- context [_handle_data_message ?v s] =>
               destruct (handle_data_not_dict v s) as [msg Hm];
               [intros d'; discriminate | eexists (_, _); exact Hm]
           end).
    destruct Hp as [k Hk]. eexists (_, _). apply (handle_data_missing d s k Hk). }
  rewrite Hev. repeat split; reflexivity.
Qed.

(** ** The properties of the specification *)

(** C1. A message on the data topic whose bytes decode to a JSON object
    holding [stream_id], [frame_id], [device_id], [timestamp], [timeout]
    and [data] makes the handler build exactly one record; its fields are
    the values found under these keys, its metadata is the value under
    [metadata] if there is one and the empty mapping otherwise, and that
    record is handed to the store exactly once. *)
Theorem data_message_builds_and_stores_one_record
    (raw : list byte) (text : string) (d : gmap string pyval) (s : Sigma)
    (v_stream_id v_frame_id v_device_id v_timestamp v_timeout v_data : pyval) :
  bytes_decode raw = Ok text ->
  json_loads text = Ok (PDict d) ->
  d !! "stream_id" = Some v_stream_id ->
  d !! "frame_id" = Some v_frame_id ->
  d !! "device_id" = Some v_device_id ->
  d !! "timestamp" = Some v_timestamp ->
  d !! "timeout" = Some v_timeout ->
  d !! "data" = Some v_data ->
  let r := {| stream_id := v_stream_id;
              frame_id := v_frame_id;
              device_id := v_device_id;
              timestamp := v_timestamp;
              timeout := v_timeout;
              image_data := v_data;
              metadata := match d !! "metadata" with
                          | Some m => m
                          | None => PDict ∅
                          end;
              created_at := fst (utcnow_isoformat s) |} in
  let answer := fst (supabase_insert "stream_data" (asdict r) (snd (utcnow_isoformat s))) in
  outcome (_on_message (value DATA) raw s) = Ok tt
  /\ records_built (trace (_on_message (value DATA) raw s)) = [r]
  /\ rows_inserted (trace (_on_message (value DATA) raw s)) = [asdict r]
  /\ trace (_on_message (value DATA) raw s) =
       Log LDEBUG "Received message on topic: %s" [AStr "device/data"]
         :: New r
         :: DbInsert "stream_data" (asdict r)
         :: store_report r answer
         ++ (if stored answer
             then [Log LINFO "Successfully processed frame %s" [AVal v_frame_id]]
             else []).
Proof.
  intros Hd Hj H1 H2 H3 H4 H5 H6 r answer.
  rewrite (on_message_data raw text (PDict d) s Hd Hj).
  destruct (handle_data_present_summary d s _ _ _ _ _ _ H1 H2 H3 H4 H5 H6)
    as (Hrec & Hrow & _).
  rewrite (handle_data_present d s _ _ _ _ _ _ H1 H2 H3 H4 H5 H6) in *.
  repeat split; assumption || reflexivity.
Qed.

(** C2. A message on the data topic whose bytes decode to a JSON object
    lacking one of the six required keys is reported as malformed, the
    report naming a required key the object lacks (the first one in
    reading order); no record is built, the store is not called and the
    world is left as it was. *)
Theorem data_message_missing_field_rejected
    (raw : list byte) (text : string) (d : gmap string pyval) (s : Sigma)
    (absent : string) :
  bytes_decode raw = Ok text ->
  json_loads text = Ok (PDict d) ->
  absent ∈ required_fields ->
  d !! absent = None ->
  exists named,
    named ∈ required_fields
    /\ d !! named = None
    /\ first_missing d = Some named
    /\ _on_message (value DATA) raw s =
         (Ok tt, s,
          [Log LDEBUG "Received message on topic: %s" [AStr "device/data"];
           Log LERROR "Missing required field in payload: %s" [AExc (KeyError named)]])
    /\ records_built (trace (_on_message (value DATA) raw s)) = []
    /\ rows_inserted (trace (_on_message (value DATA) raw s)) = [].
Proof.
  intros Hd Hj Hin Habs.
  destruct (missing_first_missing d absent Hin Habs) as [named Hnamed].
  destruct (first_missing_Some d named Hnamed) as [Hreq Hnone].
  exists named.
  rewrite (on_message_data raw text (PDict d) s Hd Hj).
  rewrite (handle_data_missing d s named Hnamed).
  repeat split; assumption || reflexivity.
Qed.

(** C3. Whatever bytes arrive on the debug topic, with or without a
    [meta] entry, the message is ignored: the callback returns, the world
    is unchanged, every event is a logging call, no record is built and
    the store is not called.  When the bytes decode to an object, the
    only thing logged besides the arrival is the value under [meta], or
    the empty mapping. *)
Theorem debug_message_only_logged (raw : list byte) (s : Sigma) :
  outcome (_on_message (value DEBUG) raw s) = Ok tt
  /\ world (_on_message (value DEBUG) raw s) = s
  /\ forallb is_log (trace (_on_message (value DEBUG) raw s)) = true
  /\ records_built (trace (_on_message (value DEBUG) raw s)) = []
  /\ rows_inserted (trace (_on_message (value DEBUG) raw s)) = []
  /\ (forall text d,
        bytes_decode raw = Ok text -> json_loads text = Ok (PDict d) ->
        trace (_on_message (value DEBUG) raw s) =
          [Log LDEBUG "Received message on topic: %s" [AStr "device/debug"];
           Log LDEBUG "Debug data: %s"
               [AVal (match d !! "meta" with
                      | Some m => m
                      | None => PDict ∅
                      end)]]).
Proof.
  destruct (decode_failure raw) as [e|] eqn:Hfail.
  - rewrite (on_message_undecodable _ raw s e Hfail).
    repeat split; try (destruct (isinstance e JSONDecodeErrorC); reflexivity).
    intros text d Hd Hj. unfold decode_failure in Hfail.
    rewrite Hd, Hj in Hfail. discriminate.
  - destruct (decode_failure_None raw Hfail) as (text & payload & Hd & Hj).
    rewrite (on_message_debug raw text payload s Hd Hj).
    rewrite handle_debug_run.
    repeat split; try (destruct payload; reflexivity).
    intros text' d Hd' Hj'. rewrite Hd in Hd'. injection Hd' as <-.
    rewrite Hj in Hj'. injection Hj' as ->. reflexivity.
Qed.

(** C4. [store_data] never raises: whatever the store does with the row,
    the call returns [True] when the insert returned and [False] when it
    raised, the exception being logged and swallowed. *)
Theorem store_data_never_propagates (data : StreamData) (s : Sigma) :
  outcome (store_data data s) =
    match fst (supabase_insert "stream_data" (asdict data) s) with
    | Ok _ => Ok true
    | Raise _ => Ok false
    end
  /\ returns (outcome (store_data data s))
  /\ rows_inserted (trace (store_data data s)) = [asdict data].
Proof.
  rewrite store_data_run. simpl.
  destruct (fst (supabase_insert "stream_data" (asdict data) s)) as [[]|e];
    repeat split; reflexivity.
Qed.

(** C5. No error met while processing a message ends the session or the
    process.  The message callback returns for every topic and every
    payload; so does every run of callbacks, and the network loop ends
    only as the session itself ends.  Whatever was delivered before it
    (undecodable bytes, JSON that is not an object, objects lacking
    fields, rows the store refused), a well-formed data message is still
    turned into a record and its insert is attempted. *)
Theorem message_errors_never_stop_the_bridge :
  (forall topic raw s, outcome (_on_message topic raw s) = Ok tt)
  /\ (forall cbs s, outcome (for_each dispatch cbs s) = Ok tt)
  /\ (forall s, outcome (loop_forever s) = ending (fst (mqtt_session s)))
  /\ (forall before raw text d s,
        bytes_decode raw = Ok text ->
        json_loads text = Ok (PDict d) ->
        first_missing d = None ->
        let earlier := for_each dispatch before s in
        let all := for_each dispatch (before ++ [OnMessage (value DATA) raw]) s in
        exists r,
          records_built (trace all) = records_built (trace earlier) ++ [r]
          /\ rows_inserted (trace all) = rows_inserted (trace earlier) ++ [asdict r]
          /\ d !! "stream_id" = Some (stream_id r)
          /\ d !! "frame_id" = Some (frame_id r)
          /\ d !! "device_id" = Some (device_id r)
          /\ d !! "timestamp" = Some (timestamp r)
          /\ d !! "timeout" = Some (timeout r)
          /\ d !! "data" = Some (image_data r)
          /\ created_at r = fst (utcnow_isoformat (world earlier))).
Proof.
  split; [|split; [|split]].
  - intros topic raw s. apply returns_unit, on_message_never_raises.
  - intros cbs s. apply returns_unit, never_raises_for_each, dispatch_never_raises.
  - intros s. rewrite loop_forever_run. reflexivity.
  - intros before raw text d s Hd Hj Hnone earlier all.
    destruct (first_missing_None d Hnone)
      as (v1 & v2 & v3 & v4 & v5 & v6 & H1 & H2 & H3 & H4 & H5 & H6).
    destruct (handle_data_present_summary d (world earlier) _ _ _ _ _ _
                H1 H2 H3 H4 H5 H6) as (Hrec & Hrow & _).
    eexists. subst all.
    rewrite (for_each_snoc_trace dispatch before _ s dispatch_never_raises).
    fold earlier.
    change (dispatch (OnMessage (value DATA) raw) (world earlier))
      with (_on_message (value DATA) raw (world earlier)).
    rewrite (on_message_data raw text (PDict d) (world earlier) Hd Hj).
    rewrite records_built_app, rows_inserted_app.
    rewrite trace_of_triple.
    rewrite records_built_log, rows_inserted_log, Hrec, Hrow.
    repeat split; assumption || reflexivity.
Qed.


(** C7. The connect callback, under the version 2 callback interface the
    client is created with.  The configured topics are exactly the values
    of the two topic kinds, each at quality of service 1.  A reason code
    equal to 0 makes the callback subscribe to them, in one call, and log
    their names; both lines reach the log.  Any other reason code makes it
    subscribe to nothing and call [logger.error] with the directive [%d]
    and the reason code object: that message cannot be formatted, so the
    call returns and no error line is written. *)
Theorem connect_ack_rejection_writes_no_line (s : Sigma) :
  topics _mqtt_config = [("device/data", 1%Z); ("device/debug", 1%Z)]
  /\ (forall t : TopicType, (value t, 1%Z) ∈ topics _mqtt_config)
  /\ (forall tp, tp ∈ topics _mqtt_config -> exists t : TopicType, tp = (value t, 1%Z))
  /\ (forall rc : ReasonCode,
        rc_value rc = 0%Z ->
        _on_connect rc s =
          (Ok tt, s,
           [Log LINFO "Connected to MQTT broker successfully" [];
            Subscribe (topics _mqtt_config);
            Log LINFO "Subscribed to topics: %s" [AStrs ["device/data"; "device/debug"]]])
        /\ lines_written (trace (_on_connect rc s)) =
             [Log LINFO "Connected to MQTT broker successfully" [];
              Log LINFO "Subscribed to topics: %s"
                  [AStrs ["device/data"; "device/debug"]]])
  /\ (forall rc : ReasonCode,
        rc_value rc <> 0%Z ->
        _on_connect rc s =
          (Ok tt, s,
           [Log LERROR "Failed to connect to MQTT broker with code %d" [ACode rc]])
        /\ subscriptions (trace (_on_connect rc s)) = []
        /\ formats "Failed to connect to MQTT broker with code %d" [ACode rc] = false
        /\ lines_written (trace (_on_connect rc s)) = []).
Proof.
  split; [reflexivity|]. split; [|split; [|split]].
  - intros t. destruct t; simpl; set_solver.
  - intros tp Hin. simpl in Hin.
    apply elem_of_cons in Hin as [->|Hin]; [exists DATA; reflexivity|].
    apply elem_of_cons in Hin as [->|Hin]; [exists DEBUG; reflexivity|].
    inversion Hin.
  - intros rc Hrc. unfold _on_connect. rewrite Hrc. split; reflexivity.
  - intros rc Hrc. unfold _on_connect.
    destruct (Z.eqb_spec (rc_value rc) 0) as [Heq|_]; [contradiction|].
    repeat split; reflexivity.
Qed.

(** C8. Bytes that cannot be decoded, on any topic: the callback returns,
    logs the decoder's exception at error level, builds no record, does
    not call the store and leaves the world as it was.  A
    [JSONDecodeError] is reported by the JSON clause, together with the
    raw bytes at debug level; any other decoding exception (bytes that
    are not UTF-8) by the general clause, together with a traceback. *)
Theorem undecodable_message_logged_and_dropped
    (topic : string) (raw : list byte) (s : Sigma) (e : exn) :
  decode_failure raw = Some e ->
  outcome (_on_message topic raw s) = Ok tt
  /\ world (_on_message topic raw s) = s
  /\ records_built (trace (_on_message topic raw s)) = []
  /\ rows_inserted (trace (_on_message topic raw s)) = []
  /\ trace (_on_message topic raw s) =
       [Log LDEBUG "Received message on topic: %s" [AStr topic];
        Log LERROR (if isinstance e JSONDecodeErrorC
                    then "Failed to decode JSON message: %s"
                    else "Error processing message: %s") [AExc e];
        if isinstance e JSONDecodeErrorC
        then Log LDEBUG "Raw message: %s" [ABytes raw]
        else LogTraceback e].
Proof.
  intros Hfail. rewrite (on_message_undecodable topic raw s e Hfail).
  destruct (isinstance e JSONDecodeErrorC); repeat split; reflexivity.
Qed.

(** C9. Classification is idempotent up to the creation time.  Handling
    the same bytes of a data message in two worlds builds the same
    number of records, equal field by field except for [created_at];
    for a well-formed message each run builds one record, stamped with
    the clock of its own world. *)
Theorem classification_idempotent_up_to_creation_time
    (raw : list byte) (s1 s2 : Sigma) :
  Forall2 same_but_created_at
    (records_built (trace (_on_message (value DATA) raw s1)))
    (records_built (trace (_on_message (value DATA) raw s2)))
  /\ (forall text d,
        bytes_decode raw = Ok text ->
        json_loads text = Ok (PDict d) ->
        first_missing d = None ->
        exists r1 r2,
          records_built (trace (_on_message (value DATA) raw s1)) = [r1]
          /\ records_built (trace (_on_message (value DATA) raw s2)) = [r2]
          /\ stream_id r1 = stream_id r2
          /\ frame_id r1 = frame_id r2
          /\ device_id r1 = device_id r2
          /\ timestamp r1 = timestamp r2
          /\ timeout r1 = timeout r2
          /\ image_data r1 = image_data r2
          /\ metadata r1 = metadata r2
          /\ created_at r1 = fst (utcnow_isoformat s1)
          /\ created_at r2 = fst (utcnow_isoformat s2)).
Proof.
  assert (forall text d,
            bytes_decode raw = Ok text -> json_loads text = Ok (PDict d) ->
            first_missing d = None ->
            exists v1 v2 v3 v4 v5 v6, forall s,
              records_built (trace (_on_message (value DATA) raw s)) =
                [{| stream_id := v1; frame_id := v2; device_id := v3;
                    timestamp := v4; timeout := v5; image_data := v6;
                    metadata := default (PDict ∅) (d !! "metadata");
                    created_at := fst (utcnow_isoformat s) |}]) as Hone.
  { intros text d Hd Hj Hnone.
    destruct (first_missing_None d Hnone)
      as (v1 & v2 & v3 & v4 & v5 & v6 & H1 & H2 & H3 & H4 & H5 & H6).
    exists v1, v2, v3, v4, v5, v6. intros s.
    rewrite (on_message_data raw text (PDict d) s Hd Hj), trace_of_triple.
    rewrite records_built_log.
    apply (handle_data_present_summary d s _ _ _ _ _ _ H1 H2 H3 H4 H5 H6). }
  split.
  - destruct (decode_failure raw) as [e|] eqn:Hfail.
    + rewrite !(on_message_undecodable _ raw _ e Hfail), !trace_of_triple.
      destruct (isinstance e JSONDecodeErrorC); constructor.
    + destruct (decode_failure_None raw Hfail) as (text & payload & Hd & Hj).
      assert (match payload with
              | PDict d => is_Some (first_missing d)
              | _ => True
              end \/ exists d, payload = PDict d /\ first_missing d = None) as [Hrej|Hok].
      { destruct payload as [| | | | | |d]; try (left; exact I).
        destruct (first_missing d) eqn:E; [left; eauto | right; eauto]. }
      * rewrite !(on_message_data raw text payload _ Hd Hj), !trace_of_triple.
        rewrite !records_built_log.
        destruct (handle_data_rejected_summary payload s1 Hrej) as (_ & -> & _).
        destruct (handle_data_rejected_summary payload s2 Hrej) as (_ & -> & _).
        constructor.
      * destruct Hok as (d & -> & Hnone).
        destruct (Hone text d Hd Hj Hnone) as (v1 & v2 & v3 & v4 & v5 & v6 & Hrec).
        rewrite !Hrec. repeat constructor.
  - intros text d Hd Hj Hnone.
    destruct (Hone text d Hd Hj Hnone) as (v1 & v2 & v3 & v4 & v5 & v6 & Hrec).
    eexists _, _. rewrite !Hrec. repeat split; reflexivity.
Qed.

(** C10. The required fields are checked for presence only.  Whatever
    values, of whatever type, a decoded object holds under the six
    required keys, the record is built with exactly these values and
    handed to the store; nothing is reported as a malformed message. *)
Theorem required_fields_checked_for_presence_only
    (raw : list byte) (text : string) (d : gmap string pyval) (s : Sigma)
    (v_stream_id v_frame_id v_device_id v_timestamp v_timeout v_data : pyval) :
  bytes_decode raw = Ok text ->
  json_loads text = Ok (PDict d) ->
  d !! "stream_id" = Some v_stream_id ->
  d !! "frame_id" = Some v_frame_id ->
  d !! "device_id" = Some v_device_id ->
  d !! "timestamp" = Some v_timestamp ->
  d !! "timeout" = Some v_timeout ->
  d !! "data" = Some v_data ->
  exists r,
    records_built (trace (_on_message (value DATA) raw s)) = [r]
    /\ rows_inserted (trace (_on_message (value DATA) raw s)) = [asdict r]
    /\ stream_id r = v_stream_id
    /\ frame_id r = v_frame_id
    /\ device_id r = v_device_id
    /\ timestamp r = v_timestamp
    /\ timeout r = v_timeout
    /\ image_data r = v_data
    /\ asdict r !! "timeout" = Some v_timeout
    /\ asdict r !! "image_data" = Some v_data
    /\ existsb rejection (trace (_on_message (value DATA) raw s)) = false.
Proof.
  intros Hd Hj H1 H2 H3 H4 H5 H6.
  destruct (handle_data_present_summary d s _ _ _ _ _ _ H1 H2 H3 H4 H5 H6)
    as (Hrec & Hrow & Hrej).
  eexists.
  rewrite (on_message_data raw text (PDict d) s Hd Hj), trace_of_triple.
  rewrite records_built_log, rows_inserted_log, Hrec, Hrow.
  repeat split; try reflexivity.
  simpl. exact Hrej.
Qed.

End Properties.

(** ** Further properties of the message pipeline *)

Section Pipeline.
Context {W : World}.
Local Open Scope py_scope.

Lemma for_each_cons_run {A} (f : A -> M Sigma unit) x xs s :
  (forall x, never_raises (f x)) ->
  world (for_each f (x :: xs) s) = world (for_each f xs (world (f x s)))
  /\ trace (for_each f (x :: xs) s) =
       trace (f x s) ++ trace (for_each f xs (world (f x s))).
Proof.
  intros Hf. pose proof (Hf x s) as Hx.
  change (for_each f (x :: xs) s) with (bind (f x) (fun _ => for_each f xs) s).
  unfold bind, world, trace.
  destruct (f x s) as [[[[]|e] s1] t1]; simpl in *; [|tauto].
  destruct (for_each f xs s1) as [[r2 s2] t2]. split; reflexivity.
Qed.

Lemma on_message_other topic raw text payload s :
  topic <> value DATA -> topic <> value DEBUG ->
  bytes_decode raw = Ok text -> json_loads text = Ok payload ->
  _on_message topic raw s =
    (Ok tt, s, [Log LDEBUG "Received message on topic: %s" [AStr topic]]).
Proof.
  intros Hdata Hdebug Hd Hj.
  unfold _on_message, try_except, bind, lift, log, emit, ret.
  rewrite Hd, Hj.
  destruct (String.eqb_spec topic (value DATA)) as [|_]; [contradiction|].
  destruct (String.eqb_spec topic (value DEBUG)) as [|_]; [contradiction|].
  reflexivity.
Qed.

(** A callback either leaves the world alone and builds nothing, or
    builds one record and hands its row to the store. *)
Lemma dispatch_cases cb s :
  (world (dispatch cb s) = s
   /\ records_built (trace (dispatch cb s)) = []
   /\ rows_inserted (trace (dispatch cb s)) = [])
  \/ exists r,
       records_built (trace (dispatch cb s)) = [r]
       /\ rows_inserted (trace (dispatch cb s)) = [asdict r].
Proof.
  destruct cb as [rc|topic raw]; simpl.
  { left. unfold _on_connect.
    destruct (rc_value rc =? 0)%Z; repeat split; reflexivity. }
  destruct (decode_failure raw) as [e|] eqn:Hfail.
  { left. rewrite (on_message_undecodable topic raw s e Hfail).
    destruct (isinstance e JSONDecodeErrorC); repeat split; reflexivity. }
  destruct (decode_failure_None raw Hfail) as (text & payload & Hd & Hj).
  destruct (String.eqb_spec topic (value DATA)) as [->|Hdata].
  - rewrite (on_message_data raw text payload s Hd Hj).
    unfold world at 1. rewrite trace_of_triple, records_built_log, rows_inserted_log.
    simpl fst. simpl snd.
    assert (match payload with
            | PDict d => is_Some (first_missing d)
            | _ => True
            end \/ exists d, payload = PDict d /\ first_missing d = None) as [Hrej|Hok].
    { destruct payload as [| | | | | |d]; try (left; exact I).
      destruct (first_missing d) eqn:E; [left; eauto | right; eauto]. }
    + left. apply (handle_data_rejected_summary payload s Hrej).
    + right. destruct Hok as (d & -> & Hnone).
      destruct (first_missing_None d Hnone)
        as (v1 & v2 & v3 & v4 & v5 & v6 & H1 & H2 & H3 & H4 & H5 & H6).
      destruct (handle_data_present_summary d s _ _ _ _ _ _ H1 H2 H3 H4 H5 H6)
        as (Hrec & Hrow & _).
      eexists. split; [exact Hrec | exact Hrow].
  - left. destruct (String.eqb_spec topic (value DEBUG)) as [->|Hdebug].
    + rewrite (on_message_debug raw text payload s Hd Hj), handle_debug_run.
      destruct payload; repeat split; reflexivity.
    + rewrite (on_message_other topic raw text payload s Hdata Hdebug Hd Hj).
      repeat split; reflexivity.
Qed.

Ltac quiet_events :=
  repeat first
    [ apply emits_ret | apply emits_lift | apply emits_call
    | apply emits_emit; exact I
    | apply emits_bind; [|intros ?]
    | apply emits_try_except
    | match goal with
      | |- Forall _ (_ :: _) => constructor; [intros ?|]
      | |- Forall _ [] => constructor
      end
    | match goal with |- emits _ (if ?b then _ else _) => destruct b end ].

Lemma on_message_never_subscribes topic raw :
  emits not_subscribe (_on_message topic raw).
Proof. unfold _on_message, _handle_debug_message, log. quiet_events. Qed.

Lemma not_subscribe_quiet tr : Forall not_subscribe tr -> subscriptions tr = [].
Proof.
  induction 1 as [|ev tr Hev _ IH]; [reflexivity|].
  unfold subscriptions in *. destruct ev; simpl in *; try tauto; exact IH.
Qed.

(** X1. A message on a topic outside the two known ones is decoded and
    then dropped: apart from the arrival line nothing is logged, nothing is
    built or stored, and the world is as before. *)
Theorem unknown_topic_dropped
    (topic : string) (raw : list byte) (text : string) (payload : pyval) (s : Sigma) :
  topic <> "device/data" ->
  topic <> "device/debug" ->
  bytes_decode raw = Ok text ->
  json_loads text = Ok payload ->
  _on_message topic raw s =
    (Ok tt, s, [Log LDEBUG "Received message on topic: %s" [AStr topic]]).
Proof. intros Hdata Hdebug Hd Hj. exact (on_message_other topic raw text payload s Hdata Hdebug Hd Hj). Qed.

(** X2. Valid JSON that is not an object, on the data topic: subscripting
    it raises [TypeError], which the handler reports as an error of
    handling, not as a missing field; no record, no insert, world
    unchanged. *)
Theorem non_object_on_data_topic
    (raw : list byte) (text : string) (payload : pyval) (s : Sigma) :
  bytes_decode raw = Ok text ->
  json_loads text = Ok payload ->
  (forall d, payload <> PDict d) ->
  exists msg,
    _on_message (value DATA) raw s =
      (Ok tt, s,
       [Log LDEBUG "Received message on topic: %s" [AStr "device/data"];
        Log LERROR "Error handling data message: %s" [AExc (TypeError msg)]]).
Proof.
  intros Hd Hj Hv. destruct (handle_data_not_dict payload s Hv) as [msg Hm].
  exists msg. rewrite (on_message_data raw text payload s Hd Hj), Hm. reflexivity.
Qed.

(** X3. Valid JSON that is not an object, on the debug topic: the debug
    handler has no [try], so the [AttributeError] of [payload.get] reaches
    [_on_message], whose general clause reports it with a traceback. *)
Theorem non_object_on_debug_topic
    (raw : list byte) (text : string) (payload : pyval) (s : Sigma) :
  bytes_decode raw = Ok text ->
  json_loads text = Ok payload ->
  (forall d, payload <> PDict d) ->
  let e := AttributeError ("'" +:+ type_name payload +:+ "' object has no attribute 'get'") in
  outcome (_handle_debug_message payload s) = Raise e
  /\ _on_message (value DEBUG) raw s =
       (Ok tt, s,
        [Log LDEBUG "Received message on topic: %s" [AStr "device/debug"];
         Log LERROR "Error processing message: %s" [AExc e];
         LogTraceback e]).
Proof.
  intros Hd Hj Hv e.
  rewrite (on_message_debug raw text payload s Hd Hj), handle_debug_run.
  destruct payload; try (split; reflexivity).
  exfalso. eapply Hv. reflexivity.
Qed.

(** X4. Along any run of callbacks, the rows handed to the store are the
    rows of the records built, one for one and in the same order: no
    record is dropped before the store, none is sent twice, and nothing
    else is ever inserted. *)
Theorem every_record_inserted_once (cbs : list callback) (s : Sigma) :
  rows_inserted (trace (for_each dispatch cbs s)) =
    asdict <$> records_built (trace (for_each dispatch cbs s)).
Proof.
  revert s. induction cbs as [|cb cbs IH]; intros s; [reflexivity|].
  destruct (for_each_cons_run dispatch cb cbs s dispatch_never_raises) as [_ ->].
  rewrite records_built_app, rows_inserted_app, fmap_app, IH. f_equal.
  destruct (dispatch_cases cb s) as [(_ & -> & ->)|(r & -> & ->)]; reflexivity.
Qed.

(** X5. Callbacks change the world only by building a record: after a
    run that built none (undecodable bytes, unknown topics, debug
    messages, objects lacking fields, connect acknowledgments), the clock
    was not read and the store was not touched. *)
Theorem no_record_no_effect (cbs : list callback) (s : Sigma) :
  records_built (trace (for_each dispatch cbs s)) = [] ->
  world (for_each dispatch cbs s) = s.
Proof.
  revert s. induction cbs as [|cb cbs IH]; intros s; [reflexivity|].
  destruct (for_each_cons_run dispatch cb cbs s dispatch_never_raises) as [-> ->].
  rewrite records_built_app. intros Hnone.
  apply app_eq_nil in Hnone as [Hcb Hrest].
  destruct (dispatch_cases cb s) as [(Hw & _ & _)|(r & Hr & _)].
  - rewrite Hw in *. apply IH. exact Hrest.
  - rewrite Hr in Hcb. discriminate.
Qed.

(** X6. The bridge subscribes when, and only when, the broker
    acknowledges a connection with code 0: along any run of callbacks there
    is one subscription to the configured topics per successful
    acknowledgment, and messages never cause one. *)
Theorem one_subscription_per_successful_ack (cbs : list callback) (s : Sigma) :
  subscriptions (trace (for_each dispatch cbs s)) =
    replicate (length (filter (fun cb => is_success_ack cb = true) cbs))
              [("device/data", 1%Z); ("device/debug", 1%Z)].
Proof.
  revert s. induction cbs as [|cb cbs IH]; intros s; [reflexivity|].
  destruct (for_each_cons_run dispatch cb cbs s dispatch_never_raises) as [_ ->].
  unfold subscriptions in *. rewrite omap_app, IH.
  destruct cb as [rc|topic raw].
  - rewrite filter_cons. simpl. unfold _on_connect.
    destruct (Z.eqb_spec (rc_value rc) 0) as [Hrc|Hrc].
    + rewrite decide_True by reflexivity. reflexivity.
    + rewrite decide_False by discriminate.
      reflexivity.
  - rewrite filter_cons, decide_False by discriminate.
    change (dispatch (OnMessage topic raw) s) with (_on_message topic raw s).
    pose proof (not_subscribe_quiet _ (on_message_never_subscribes topic raw s)) as Hq.
    unfold subscriptions in Hq. rewrite Hq. reflexivity.
Qed.

End Pipeline.

(** ** Further properties of the supervisor *)

Section Supervisor.
Context {W : World}.
Local Open Scope py_scope.

(** X7. When [connect] raises, the round goes straight to the retry
    epilogue: the network loop is not entered, no session is taken from the
    broker, and the world is the one [connect] left. *)
Theorem failed_connect_skips_the_loop (s s1 : Sigma) (e : exn) :
  mqtt_connect env_broker env_port s = (Raise e, s1) ->
  start_round s =
    (Ok tt, s1,
     [Log LINFO "Connecting to MQTT broker at %s:%d" [AStr env_broker; AInt env_port];
      Connect env_broker env_port;
      Log LERROR "MQTT connection error: %s" [AExc e];
      LogTraceback e;
      Log LINFO "Retrying connection in 5 seconds..." [];
      Sleep 5]).
Proof.
  intros Hc. unfold start_round, try_except, bind, call, log, emit. simpl.
  rewrite Hc. reflexivity.
Qed.

(** X8. When the network loop returns without an exception, the round
    ends without error line and without sleep: the supervisor goes back to
    [connect] at once. *)
Theorem clean_session_reconnects_at_once (s s1 : Sigma) :
  mqtt_connect env_broker env_port s = (Ok tt, s1) ->
  ending (fst (mqtt_session s1)) = Ok tt ->
  let served := for_each dispatch (deliveries (fst (mqtt_session s1)))
                  (snd (mqtt_session s1)) in
  start_round s =
    (Ok tt, world served,
     Log LINFO "Connecting to MQTT broker at %s:%d" [AStr env_broker; AInt env_port]
       :: Connect env_broker env_port
       :: Log LINFO "Starting MQTT loop..." []
       :: LoopForever
       :: trace served)
  /\ sleeps (trace (start_round s)) = [].
Proof.
  intros Hc Hend served.
  assert (start_round s =
            (Ok tt, world served,
             Log LINFO "Connecting to MQTT broker at %s:%d" [AStr env_broker; AInt env_port]
               :: Connect env_broker env_port
               :: Log LINFO "Starting MQTT loop..." []
               :: LoopForever
               :: trace served)) as Hrun.
  { unfold start_round, try_except, bind, call, log, emit. simpl.
    rewrite Hc. rewrite loop_forever_run. fold served. rewrite Hend.
    reflexivity. }
  split; [exact Hrun|].
  destruct (start_round_shape s) as (during & _ & Hs & _ & Htr).
  rewrite Htr. unfold round_failure. rewrite Hc, Hend, app_nil_r.
  unfold sleeps in *. simpl. exact Hs.
Qed.

(** X9. The supervisor sleeps once, for 5 seconds, after each failed
    round and never otherwise: after [n] rounds the sleeps are as many
    5-second pauses as rounds have failed.  There is no backoff and no
    pause after a session that ended cleanly. *)
Theorem one_fixed_sleep_per_failed_round (n : nat) (s : Sigma) :
  sleeps (trace (start n s)) = replicate (failures n s) 5%Z
  /\ (failures n s <= n)%nat.
Proof.
  induction n as [|n [IHs IHle]]; [split; [reflexivity | simpl; lia]|].
  rewrite start_succ, trace_of_triple. simpl failures.
  destruct (start_round_shape (world (start n s))) as (during & _ & Hs & _ & Htr).
  rewrite Htr. unfold sleeps in *. rewrite omap_app, IHs. simpl.
  rewrite omap_app, Hs. simpl.
  destruct (round_failure (world (start n s))); simpl.
  - rewrite <- replicate_S_end. rewrite Nat.add_1_r. split; [reflexivity | lia].
  - rewrite app_nil_r, Nat.add_0_r. split; [reflexivity | lia].
Qed.

End Supervisor.

(** ** Properties of start-up *)

Section StartupProperties.
Context {W : World} {H : Host W}.
Local Open Scope py_scope.

Lemma setup_environment_run :
  _setup_environment =
    match first_unset with
    | Some var => Raise (RuntimeError ("Missing required environment variable: " +:+ var))
    | None =>
        Ok (<["MQTT_PORT" := default "" (getenv "MQTT_PORT")]>
            (<["MQTT_BROKER" := default "" (getenv "MQTT_BROKER")]>
            (<["SUPABASE_KEY" := default "" (getenv "SUPABASE_KEY")]>
            (<["SUPABASE_URL" := default "" (getenv "SUPABASE_URL")]> ∅))))
    end.
Proof.
  unfold _setup_environment, first_unset, required_vars, unset. simpl.
  repeat (match goal with
          | |- context [getenv ?var] => destruct (getenv var) as [?v|]
          end; simpl; try reflexivity;
          match goal with
          | |- context [str_is_empty ?v] => destruct (str_is_empty v)
          end; simpl; try reflexivity).
Qed.

Lemma first_unset_None :
  first_unset = None ->
  exists url key host port_text,
    getenv "SUPABASE_URL" = Some url /\ str_is_empty url = false
    /\ getenv "SUPABASE_KEY" = Some key /\ str_is_empty key = false
    /\ getenv "MQTT_BROKER" = Some host /\ str_is_empty host = false
    /\ getenv "MQTT_PORT" = Some port_text /\ str_is_empty port_text = false.
Proof.
  unfold first_unset, required_vars, unset. simpl.
  repeat (match goal with
          | |- context [getenv ?var] => destruct (getenv var) as [?v|]
          end; simpl; try discriminate;
          match goal with
          | |- context [str_is_empty ?v] => destruct (str_is_empty v) eqn:?
          end; simpl; try discriminate).
  intros _. eauto 20.
Qed.

Lemma str_is_empty_false text : str_is_empty text = false <-> text <> "".
Proof. unfold str_is_empty. apply String.eqb_neq. Qed.

Lemma first_unset_Some var :
  first_unset = Some var ->
  var ∈ required_vars /\ (getenv var = None \/ getenv var = Some "").
Proof.
  intros Hf. apply find_some in Hf as [Hin Hu]. split.
  - apply list_elem_of_In. exact Hin.
  - unfold unset in Hu. destruct (getenv var) as [v|]; [right|left; reflexivity].
    apply String.eqb_eq in Hu. rewrite Hu. reflexivity.
Qed.

Lemma unset_first_unset var :
  var ∈ required_vars -> (getenv var = None \/ getenv var = Some "") ->
  is_Some first_unset.
Proof.
  intros Hin Hv. destruct first_unset as [v|] eqn:E; [eauto|].
  apply list_elem_of_In in Hin.
  pose proof (find_none _ _ E var Hin) as Hno. unfold unset in Hno.
  destruct Hv as [Hv|Hv]; rewrite Hv in Hno; discriminate.
Qed.

Lemma bind_lift_ok {A B} (a : A) (k : A -> M Sigma B) s :
  bind (lift (Ok a)) k s = k a s.
Proof. unfold bind, lift. destruct (k a s) as [[r s2] t2]. reflexivity. Qed.

Lemma database_init_run url key s :
  str_is_empty url = false -> str_is_empty key = false ->
  DatabaseManager_init url key s =
    match create_client url key s with
    | (Ok _, s1) => (Ok tt, s1, [Log LINFO "Successfully connected to Supabase" []])
    | (Raise e, s1) =>
        (Raise (RuntimeError "Failed to initialize database connection"), s1,
         [Log LERROR "Failed to connect to Supabase: %s" [AExc e]])
    end.
Proof.
  intros Hu Hk. unfold DatabaseManager_init. rewrite Hu, Hk. simpl.
  unfold try_except, bind, call, log, emit, lift.
  destruct (create_client url key s) as [[[]|e] s1]; reflexivity.
Qed.

Lemma bind_lift_raise {A B} (e : exn) (k : A -> M Sigma B) s :
  bind (lift (Raise e)) k s = (Raise e, s, []).
Proof. reflexivity. Qed.

Lemma bridge_init_unloaded s e :
  load_dotenv = Raise e -> MQTTBridge_init s = (Raise e, s, []).
Proof. intros Hl. unfold MQTTBridge_init. rewrite Hl. apply bind_lift_raise. Qed.

Lemma bridge_init_run s url key host port_text :
  load_dotenv = Ok tt ->
  getenv "SUPABASE_URL" = Some url -> str_is_empty url = false ->
  getenv "SUPABASE_KEY" = Some key -> str_is_empty key = false ->
  getenv "MQTT_BROKER" = Some host -> str_is_empty host = false ->
  getenv "MQTT_PORT" = Some port_text -> str_is_empty port_text = false ->
  MQTTBridge_init s =
    match create_client url key s with
    | (Raise e, s1) =>
        (Raise (RuntimeError "Failed to initialize database connection"), s1,
         [Log LERROR "Failed to connect to Supabase: %s" [AExc e]])
    | (Ok _, s1) =>
        match int_of_str port_text with
        | Raise e => (Raise e, s1, [Log LINFO "Successfully connected to Supabase" []])
        | Ok n =>
            match mqtt_Client with
            | Raise e =>
                (Raise e, s1, [Log LINFO "Successfully connected to Supabase" []])
            | Ok _ =>
                (Ok {| broker := host; port := n;
                       topics := [("device/data", 1%Z); ("device/debug", 1%Z)] |},
                 s1, [Log LINFO "Successfully connected to Supabase" []])
            end
        end
    end.
Proof.
  intros Hl H1 E1 H2 E2 H3 E3 H4 E4.
  assert (_setup_environment =
            Ok (<["MQTT_PORT" := port_text]>
                (<["MQTT_BROKER" := host]>
                (<["SUPABASE_KEY" := key]>
                (<["SUPABASE_URL" := url]> ∅))))) as Hsetup.
  { unfold _setup_environment, required_vars. simpl.
    rewrite H1, E1, H2, E2, H3, E3, H4, E4. reflexivity. }
  unfold MQTTBridge_init. rewrite Hl, bind_lift_ok, Hsetup, bind_lift_ok.
  change (env_item _ "SUPABASE_URL") with (@Ok string url). rewrite bind_lift_ok.
  change (env_item _ "SUPABASE_KEY") with (@Ok string key). rewrite bind_lift_ok.
  change (env_item _ "MQTT_BROKER") with (@Ok string host).
  change (env_item _ "MQTT_PORT") with (@Ok string port_text).
  unfold bind at 1. rewrite (database_init_run url key s E1 E2).
  destruct (create_client url key s) as [[[]|e] s1]; [|reflexivity].
  rewrite !bind_lift_ok. unfold _setup_mqtt_client, bind, lift, ret.
  destruct (int_of_str port_text) as [n|e]; [|reflexivity].
  destruct mqtt_Client as [[]|e]; reflexivity.
Qed.

Lemma bridge_init_missing s var :
  load_dotenv = Ok tt ->
  first_unset = Some var ->
  MQTTBridge_init s =
    (Raise (RuntimeError ("Missing required environment variable: " +:+ var)), s, []).
Proof.
  intros Hl Hf. unfold MQTTBridge_init.
  rewrite Hl, bind_lift_ok, setup_environment_run, Hf. reflexivity.
Qed.

Lemma bridge_init_quiet s : connects (trace (MQTTBridge_init s)) = [].
Proof.
  destruct load_dotenv as [[]|e0] eqn:Hl;
    [|rewrite (bridge_init_unloaded s e0 Hl); reflexivity].
  destruct first_unset as [var|] eqn:Hf.
  - rewrite (bridge_init_missing s var Hl Hf). reflexivity.
  - destruct (first_unset_None Hf)
      as (url & key & host & port_text & H1 & E1 & H2 & E2 & H3 & E3 & H4 & E4).
    rewrite (bridge_init_run s _ _ _ _ Hl H1 E1 H2 E2 H3 E3 H4 E4).
    destruct (create_client url key s) as [[[]|e] s1]; [|reflexivity].
    destruct (int_of_str port_text); [|reflexivity].
    destruct mqtt_Client as [[]|e]; reflexivity.
Qed.

(** X10. [_setup_environment] fails as soon as a required variable is
    unset or empty, with a [RuntimeError] naming the first such variable in
    the order [SUPABASE_URL], [SUPABASE_KEY], [MQTT_BROKER], [MQTT_PORT]:
    an empty value counts as a missing one. *)
Theorem setup_environment_names_first_unset (var : string) :
  var ∈ required_vars ->
  getenv var = None \/ getenv var = Some "" ->
  exists first,
    first_unset = Some first
    /\ first ∈ required_vars
    /\ (getenv first = None \/ getenv first = Some "")
    /\ _setup_environment =
         Raise (RuntimeError ("Missing required environment variable: " +:+ first)).
Proof.
  intros Hin Hv. destruct (unset_first_unset var Hin Hv) as [first Hf].
  destruct (first_unset_Some first Hf) as [Hreq Hun].
  exists first. rewrite setup_environment_run, Hf. repeat split; assumption || reflexivity.
Qed.

(** X11. [_setup_environment] succeeds exactly when the four required
    variables are set and not empty, and [self._env] then holds these four
    variables with the values of the environment, and nothing else. *)
Theorem setup_environment_complete (env : gmap string string) :
  _setup_environment = Ok env <->
  exists url key host port_text,
    getenv "SUPABASE_URL" = Some url /\ url <> ""
    /\ getenv "SUPABASE_KEY" = Some key /\ key <> ""
    /\ getenv "MQTT_BROKER" = Some host /\ host <> ""
    /\ getenv "MQTT_PORT" = Some port_text /\ port_text <> ""
    /\ env = <["MQTT_PORT" := port_text]>
             (<["MQTT_BROKER" := host]>
             (<["SUPABASE_KEY" := key]>
             (<["SUPABASE_URL" := url]> ∅))).
Proof.
  split.
  - rewrite setup_environment_run. destruct first_unset as [var|] eqn:Hf; [discriminate|].
    destruct (first_unset_None Hf)
      as (url & key & host & port_text & H1 & E1 & H2 & E2 & H3 & E3 & H4 & E4).
    rewrite H1, H2, H3, H4. simpl. intros [= <-].
    exists url, key, host, port_text.
    rewrite <- !str_is_empty_false. repeat split; assumption || reflexivity.
  - intros (url & key & host & port_text & H1 & E1 & H2 & E2 & H3 & E3 & H4 & E4 & ->).
    apply str_is_empty_false in E1, E2, E3, E4.
    unfold _setup_environment, required_vars. simpl.
    rewrite H1, E1, H2, E2, H3, E3, H4, E4. reflexivity.
Qed.

(** X12. [DatabaseManager.__init__] rejects an empty URL or key with a
    [ValueError] before the client library is called.  Otherwise whatever
    [create_client] raises is logged and replaced by a [RuntimeError] with
    a fixed message, and a client that is created is announced at info
    level. *)
Theorem database_manager_init_outcomes (url key : string) (s : Sigma) :
  (url = "" \/ key = "" ->
   DatabaseManager_init url key s =
     (Raise (ValueError "Supabase URL and key must be provided"), s, []))
  /\ (url <> "" -> key <> "" ->
      DatabaseManager_init url key s =
        match create_client url key s with
        | (Ok _, s1) => (Ok tt, s1, [Log LINFO "Successfully connected to Supabase" []])
        | (Raise e, s1) =>
            (Raise (RuntimeError "Failed to initialize database connection"), s1,
             [Log LERROR "Failed to connect to Supabase: %s" [AExc e]])
        end).
Proof.
  split.
  - intros Hempty. unfold DatabaseManager_init, str_is_empty.
    destruct Hempty as [->| ->]; [reflexivity|].
    rewrite orb_true_r. reflexivity.
  - intros Hu Hk. apply database_init_run; apply str_is_empty_false; assumption.
Qed.

(** X13. The constructor of the bridge fails in one of five ways, tried
    in this order: [load_dotenv] raises; a required variable is unset (in
    both cases nothing else is called and nothing is logged); the Supabase
    client cannot be created; the port is not an integer, which is found
    out only after the Supabase client has been created; or the MQTT
    client cannot be created, last of all.  The [ValueError] of
    [DatabaseManager.__init__] cannot occur: the variables it guards were
    checked before. *)
Theorem bridge_constructor_failures (s : Sigma) (e : exn) :
  outcome (MQTTBridge_init s) = Raise e ->
  (load_dotenv = Raise e
   /\ world (MQTTBridge_init s) = s
   /\ trace (MQTTBridge_init s) = [])
  \/ (exists var,
        load_dotenv = Ok tt
        /\ first_unset = Some var
        /\ e = RuntimeError ("Missing required environment variable: " +:+ var)
        /\ world (MQTTBridge_init s) = s
        /\ trace (MQTTBridge_init s) = [])
  \/ (exists url key cause,
        getenv "SUPABASE_URL" = Some url /\ getenv "SUPABASE_KEY" = Some key
        /\ fst (create_client url key s) = Raise cause
        /\ e = RuntimeError "Failed to initialize database connection"
        /\ trace (MQTTBridge_init s) =
             [Log LERROR "Failed to connect to Supabase: %s" [AExc cause]])
  \/ (exists url key port_text,
        getenv "SUPABASE_URL" = Some url /\ getenv "SUPABASE_KEY" = Some key
        /\ getenv "MQTT_PORT" = Some port_text
        /\ fst (create_client url key s) = Ok tt
        /\ int_of_str port_text = Raise e
        /\ world (MQTTBridge_init s) = snd (create_client url key s)
        /\ trace (MQTTBridge_init s) =
             [Log LINFO "Successfully connected to Supabase" []])
  \/ (exists url key port_text n,
        getenv "SUPABASE_URL" = Some url /\ getenv "SUPABASE_KEY" = Some key
        /\ getenv "MQTT_PORT" = Some port_text
        /\ fst (create_client url key s) = Ok tt
        /\ int_of_str port_text = Ok n
        /\ mqtt_Client = Raise e
        /\ world (MQTTBridge_init s) = snd (create_client url key s)
        /\ trace (MQTTBridge_init s) =
             [Log LINFO "Successfully connected to Supabase" []]).
Proof.
  destruct load_dotenv as [[]|e0] eqn:Hl.
  2:{ rewrite (bridge_init_unloaded s e0 Hl). intros [= <-].
      left. repeat split; reflexivity. }
  destruct first_unset as [var|] eqn:Hf.
  - rewrite (bridge_init_missing s var Hl Hf). intros [= <-].
    right. left. exists var. repeat split; reflexivity.
  - destruct (first_unset_None Hf)
      as (url & key & host & port_text & H1 & E1 & H2 & E2 & H3 & E3 & H4 & E4).
    rewrite (bridge_init_run s _ _ _ _ Hl H1 E1 H2 E2 H3 E3 H4 E4).
    destruct (create_client url key s) as [[[]|cause] s1] eqn:Hc.
    + destruct (int_of_str port_text) as [n|e'] eqn:Hp.
      * destruct mqtt_Client as [[]|e'] eqn:Hm; [discriminate|].
        intros [= <-]. do 4 right. exists url, key, port_text, n.
        rewrite Hc. repeat split; assumption || reflexivity.
      * intros [= <-]. do 3 right. left. exists url, key, port_text.
        rewrite Hc. repeat split; assumption || reflexivity.
    + intros [= <-]. do 2 right. left. exists url, key, cause.
      rewrite Hc. repeat split; assumption || reflexivity.
Qed.

(** X14. A bridge that was constructed is configured from the environment:
    its broker is [MQTT_BROKER], its port the integer read from
    [MQTT_PORT], its topics the two topic kinds at quality of service 1
    whatever the environment says; the Supabase client was created with
    [SUPABASE_URL] and [SUPABASE_KEY]. *)
Theorem bridge_constructor_config (s : Sigma) (cfg : MQTTConfig) :
  outcome (MQTTBridge_init s) = Ok cfg ->
  exists url key port_text,
    getenv "SUPABASE_URL" = Some url /\ getenv "SUPABASE_KEY" = Some key
    /\ fst (create_client url key s) = Ok tt
    /\ world (MQTTBridge_init s) = snd (create_client url key s)
    /\ getenv "MQTT_BROKER" = Some (broker cfg)
    /\ getenv "MQTT_PORT" = Some port_text
    /\ int_of_str port_text = Ok (port cfg)
    /\ topics cfg = [("device/data", 1%Z); ("device/debug", 1%Z)]
    /\ @_mqtt_config (bridge_world W cfg) = cfg.
Proof.
  destruct load_dotenv as [[]|e0] eqn:Hl;
    [|rewrite (bridge_init_unloaded s e0 Hl); discriminate].
  destruct first_unset as [var|] eqn:Hf.
  - rewrite (bridge_init_missing s var Hl Hf). discriminate.
  - destruct (first_unset_None Hf)
      as (url & key & host & port_text & H1 & E1 & H2 & E2 & H3 & E3 & H4 & E4).
    rewrite (bridge_init_run s _ _ _ _ Hl H1 E1 H2 E2 H3 E3 H4 E4).
    destruct (create_client url key s) as [[[]|cause] s1] eqn:Hc; [|discriminate].
    destruct (int_of_str port_text) as [n|e'] eqn:Hp; [|discriminate].
    destruct mqtt_Client as [[]|e'] eqn:Hm; [|discriminate].
    intros [= <-]. exists url, key, port_text.
    rewrite Hc. repeat split; assumption || reflexivity.
Qed.

(** X15. When the constructor of the bridge fails, [main] logs the
    exception as a fatal error with its traceback and exits with status
    1; no connection to the broker is ever attempted. *)
Theorem main_exits_on_failed_startup (rounds : nat) (s s1 : Sigma) (e : exn) :
  mkdir_logs s = (Ok tt, s1) ->
  outcome (MQTTBridge_init s1) = Raise e ->
  main rounds s =
    (Ok (Exited 1), world (MQTTBridge_init s1),
     Log LINFO "Starting MQTT Bridge service..." []
       :: trace (MQTTBridge_init s1)
       ++ [Log LERROR "Fatal error: %s" [AExc e]; LogTraceback e])
  /\ connects (trace (main rounds s)) = [].
Proof.
  intros Hm Hinit. pose proof (bridge_init_quiet s1) as Hq.
  assert (main rounds s =
            (Ok (Exited 1), world (MQTTBridge_init s1),
             Log LINFO "Starting MQTT Bridge service..." []
               :: trace (MQTTBridge_init s1)
               ++ [Log LERROR "Fatal error: %s" [AExc e]; LogTraceback e])) as Hrun.
  { unfold main, attempt, bind at 1, call. rewrite Hm. simpl.
    unfold try_except, bind at 1, log at 1, emit at 1. simpl.
    unfold bind at 1.
    destruct (MQTTBridge_init s1) as [[r s2] t2].
    unfold outcome in Hinit. simpl in Hinit. subst r. reflexivity. }
  split; [exact Hrun|].
  rewrite Hrun, trace_of_triple. unfold connects in *. simpl.
  rewrite omap_app, Hq. reflexivity.
Qed.

(** X16. Once the bridge is constructed, [main] never exits: after any
    number of rounds it is still inside [start], having made one connect
    attempt per round to the broker and port of the configuration. *)
Theorem main_runs_forever_after_startup
    (rounds : nat) (s s1 s2 : Sigma) (cfg : MQTTConfig) (tr : list event) :
  mkdir_logs s = (Ok tt, s1) ->
  MQTTBridge_init s1 = (Ok cfg, s2, tr) ->
  outcome (main rounds s) = Ok Running
  /\ connects (trace (main rounds s)) = replicate rounds (broker cfg, port cfg)
  /\ trace (main rounds s) =
       Log LINFO "Starting MQTT Bridge service..." []
         :: tr ++ trace (@start (bridge_world W cfg) rounds s2).
Proof.
  intros Hm Hinit. pose proof (bridge_init_quiet s1) as Hq.
  pose proof (@start_never_raises (bridge_world W cfg) rounds s2) as Hret.
  pose proof (@start_connects (bridge_world W cfg) rounds s2) as Hconn.
  rewrite Hinit, trace_of_triple in Hq.
  assert (main rounds s =
            (Ok Running, world (@start (bridge_world W cfg) rounds s2),
             Log LINFO "Starting MQTT Bridge service..." []
               :: tr ++ trace (@start (bridge_world W cfg) rounds s2))) as Hrun.
  { unfold main, attempt, bind at 1, call. rewrite Hm. simpl.
    unfold try_except, bind at 1, log at 1, emit at 1. simpl.
    unfold bind at 1. rewrite Hinit.
    unfold bind, ret, world, trace.
    destruct (@start (bridge_world W cfg) rounds s2) as [[[[]|e] s3] t3];
      simpl in *; [|tauto].
    rewrite app_nil_r. reflexivity. }
  rewrite Hrun. unfold outcome. rewrite trace_of_triple. simpl.
  repeat split; try reflexivity.
  unfold connects in *. simpl. rewrite omap_app, Hq. exact Hconn.
Qed.

(** X17. When the [logs] directory cannot be created, the [except] clause
    of [main] runs before [logger] is bound: instead of a fatal-error line
    and [sys.exit(1)], an [UnboundLocalError] leaves [main], and nothing is
    logged. *)
Theorem main_dies_unlogged_without_logs_directory
    (rounds : nat) (s s1 : Sigma) (e : exn) :
  mkdir_logs s = (Raise e, s1) ->
  main rounds s = (Raise UnboundLocalError_logger, s1, []).
Proof.
  intros Hm. unfold main, attempt, bind, call. rewrite Hm. reflexivity.
Qed.

End StartupProperties.

(** ** Worked examples

    The theorems above, applied in the concrete world [Demo.world] to the
    scenarios of the specification. *)

Lemma data_message_builds_and_stores_one_record_witness :
  outcome (@_on_message Demo.world "device/data" (Demo.bytes_of Demo.text_A) Demo.init) = Ok tt
  /\ records_built
       (trace (@_on_message Demo.world "device/data" (Demo.bytes_of Demo.text_A) Demo.init))
     = [Demo.record_A "2024-12-03T10:00:01.000000"]
  /\ rows_inserted
       (trace (@_on_message Demo.world "device/data" (Demo.bytes_of Demo.text_A) Demo.init))
     = [asdict (Demo.record_A "2024-12-03T10:00:01.000000")]
  /\ trace (@_on_message Demo.world "device/data" (Demo.bytes_of Demo.text_A) Demo.init)
     = [Log LDEBUG "Received message on topic: %s" [AStr "device/data"];
        New (Demo.record_A "2024-12-03T10:00:01.000000");
        DbInsert "stream_data" (asdict (Demo.record_A "2024-12-03T10:00:01.000000"));
        Log LINFO "Successfully stored frame %s for stream %s"
            [AVal (PStr "f1"); AVal (PStr "s1")];
        Log LINFO "Successfully processed frame %s" [AVal (PStr "f1")]].
Proof.
  apply (@data_message_builds_and_stores_one_record Demo.world
           (Demo.bytes_of Demo.text_A) (Demo.requote Demo.text_A) Demo.dict_A Demo.init
           (PStr "s1") (PStr "f1") (PStr "d1") (PStr "2024-12-03T10:00:00Z")
           (PInt 30) (PStr "QUJD"));
    vm_compute; reflexivity.
Defined.

Lemma data_message_missing_field_rejected_witness :
  exists named,
    named ∈ required_fields
    /\ Demo.dict_B !! named = None
    /\ first_missing Demo.dict_B = Some named
    /\ @_on_message Demo.world "device/data" (Demo.bytes_of Demo.text_B) Demo.init =
         (Ok tt, Demo.init,
          [Log LDEBUG "Received message on topic: %s" [AStr "device/data"];
           Log LERROR "Missing required field in payload: %s" [AExc (KeyError named)]])
    /\ records_built
         (trace (@_on_message Demo.world "device/data" (Demo.bytes_of Demo.text_B) Demo.init))
       = []
    /\ rows_inserted
         (trace (@_on_message Demo.world "device/data" (Demo.bytes_of Demo.text_B) Demo.init))
       = [].
Proof.
  apply (@data_message_missing_field_rejected Demo.world
           (Demo.bytes_of Demo.text_B) (Demo.requote Demo.text_B) Demo.dict_B Demo.init
           "timeout").
  - vm_compute; reflexivity.
  - vm_compute; reflexivity.
  - unfold required_fields. repeat constructor.
  - vm_compute; reflexivity.
Defined.

Lemma debug_message_only_logged_witness :
  trace (@_on_message Demo.world "device/debug" (Demo.bytes_of Demo.text_debug) Demo.init) =
    [Log LDEBUG "Received message on topic: %s" [AStr "device/debug"];
     Log LDEBUG "Debug data: %s" [AVal (PDict (<["fps" := PInt 30]> ∅))]].
Proof.
  apply (proj2 (proj2 (proj2 (proj2 (proj2
           (@debug_message_only_logged Demo.world
              (Demo.bytes_of Demo.text_debug) Demo.init)))))
           (Demo.requote Demo.text_debug) Demo.dict_debug);
    vm_compute; reflexivity.
Defined.

Lemma message_errors_never_stop_the_bridge_witness :
  exists r,
    records_built
      (trace (@for_each _ _ (@dispatch Demo.world)
                (Demo.troubled ++ [OnMessage "device/data" (Demo.bytes_of Demo.text_A)])
                Demo.init))
    = records_built (trace (@for_each _ _ (@dispatch Demo.world) Demo.troubled Demo.init))
        ++ [r]
    /\ rows_inserted
         (trace (@for_each _ _ (@dispatch Demo.world)
                   (Demo.troubled ++ [OnMessage "device/data" (Demo.bytes_of Demo.text_A)])
                   Demo.init))
       = rows_inserted (trace (@for_each _ _ (@dispatch Demo.world) Demo.troubled Demo.init))
           ++ [asdict r]
    /\ Demo.dict_A !! "stream_id" = Some (stream_id r)
    /\ Demo.dict_A !! "frame_id" = Some (frame_id r)
    /\ Demo.dict_A !! "device_id" = Some (device_id r)
    /\ Demo.dict_A !! "timestamp" = Some (timestamp r)
    /\ Demo.dict_A !! "timeout" = Some (timeout r)
    /\ Demo.dict_A !! "data" = Some (image_data r)
    /\ created_at r = "2024-12-03T10:00:02.000000".
Proof.
  apply (proj2 (proj2 (proj2 (@message_errors_never_stop_the_bridge Demo.world)))
           Demo.troubled (Demo.bytes_of Demo.text_A) (Demo.requote Demo.text_A)
           Demo.dict_A Demo.init);
    vm_compute; reflexivity.
Defined.


Lemma connect_ack_rejection_writes_no_line_witness :
  @_on_connect Demo.world {| rc_value := 135 |} Demo.init =
    (Ok tt, Demo.init,
     [Log LERROR "Failed to connect to MQTT broker with code %d"
          [ACode {| rc_value := 135 |}]])
  /\ subscriptions (trace (@_on_connect Demo.world {| rc_value := 135 |} Demo.init)) = []
  /\ formats "Failed to connect to MQTT broker with code %d"
       [ACode {| rc_value := 135 |}] = false
  /\ lines_written (trace (@_on_connect Demo.world {| rc_value := 135 |} Demo.init)) = [].
Proof.
  apply (proj2 (proj2 (proj2 (proj2
           (@connect_ack_rejection_writes_no_line Demo.world Demo.init))))
           {| rc_value := 135 |}).
  simpl. lia.
Defined.

Lemma undecodable_message_logged_and_dropped_witness :
  outcome (@_on_message Demo.world "device/data" (Demo.bytes_of Demo.text_C) Demo.init) = Ok tt
  /\ world (@_on_message Demo.world "device/data" (Demo.bytes_of Demo.text_C) Demo.init)
     = Demo.init
  /\ records_built
       (trace (@_on_message Demo.world "device/data" (Demo.bytes_of Demo.text_C) Demo.init))
     = []
  /\ rows_inserted
       (trace (@_on_message Demo.world "device/data" (Demo.bytes_of Demo.text_C) Demo.init))
     = []
  /\ trace (@_on_message Demo.world "device/data" (Demo.bytes_of Demo.text_C) Demo.init) =
       [Log LDEBUG "Received message on topic: %s" [AStr "device/data"];
        Log LERROR "Failed to decode JSON message: %s"
            [AExc (JSONDecodeError "Expecting value")];
        Log LDEBUG "Raw message: %s" [ABytes (Demo.bytes_of Demo.text_C)]].
Proof.
  apply (@undecodable_message_logged_and_dropped Demo.world
           "device/data" (Demo.bytes_of Demo.text_C) Demo.init
           (JSONDecodeError "Expecting value")).
  vm_compute; reflexivity.
Defined.

Lemma classification_idempotent_up_to_creation_time_witness :
  exists r1 r2,
    records_built
      (trace (@_on_message Demo.world "device/data" (Demo.bytes_of Demo.text_A) Demo.init))
    = [r1]
    /\ records_built
         (trace (@_on_message Demo.world "device/data" (Demo.bytes_of Demo.text_A) Demo.later))
       = [r2]
    /\ stream_id r1 = stream_id r2
    /\ frame_id r1 = frame_id r2
    /\ device_id r1 = device_id r2
    /\ timestamp r1 = timestamp r2
    /\ timeout r1 = timeout r2
    /\ image_data r1 = image_data r2
    /\ metadata r1 = metadata r2
    /\ created_at r1 = "2024-12-03T10:00:01.000000"
    /\ created_at r2 = "2024-12-03T11:30:00.000000".
Proof.
  apply (proj2 (@classification_idempotent_up_to_creation_time Demo.world
                  (Demo.bytes_of Demo.text_A) Demo.init Demo.later)
           (Demo.requote Demo.text_A) Demo.dict_A);
    vm_compute; reflexivity.
Defined.

Lemma required_fields_checked_for_presence_only_witness :
  exists r,
    records_built
      (trace (@_on_message Demo.world "device/data" (Demo.bytes_of Demo.text_odd) Demo.init))
    = [r]
    /\ rows_inserted
         (trace (@_on_message Demo.world "device/data" (Demo.bytes_of Demo.text_odd) Demo.init))
       = [asdict r]
    /\ stream_id r = PInt 1
    /\ frame_id r = PNone
    /\ device_id r = PList []
    /\ timestamp r = PBool true
    /\ timeout r = PStr "thirty"
    /\ image_data r = PInt 7
    /\ asdict r !! "timeout" = Some (PStr "thirty")
    /\ asdict r !! "image_data" = Some (PInt 7)
    /\ existsb rejection
         (trace (@_on_message Demo.world "device/data" (Demo.bytes_of Demo.text_odd) Demo.init))
       = false.
Proof.
  apply (@required_fields_checked_for_presence_only Demo.world
           (Demo.bytes_of Demo.text_odd) (Demo.requote Demo.text_odd) Demo.dict_odd
           Demo.init);
    vm_compute; reflexivity.
Defined.

(** Scenario B names [device_id], the first key the handler misses. *)
Example scenario_B_names_device_id :
  @_on_message Demo.world "device/data" (Demo.bytes_of Demo.text_B) Demo.init =
    (Ok tt, Demo.init,
     [Log LDEBUG "Received message on topic: %s" [AStr "device/data"];
      Log LERROR "Missing required field in payload: %s" [AExc (KeyError "device_id")]]).
Proof. vm_compute. reflexivity. Qed.

(** Bytes that are not UTF-8 fail in [decode], before [json.loads] is
    reached: the general clause of [_on_message] reports them. *)
Example not_utf8_reported :
  @_on_message Demo.world "device/data" Demo.not_utf8 Demo.init =
    (Ok tt, Demo.init,
     [Log LDEBUG "Received message on topic: %s" [AStr "device/data"];
      Log LERROR "Error processing message: %s"
          [AExc (UnicodeDecodeError "'utf-8' codec can't decode bytes")];
      LogTraceback (UnicodeDecodeError "'utf-8' codec can't decode bytes")]).
Proof. vm_compute. reflexivity. Qed.

(** A JSON array on the data topic cannot be subscripted by a key. *)
Example array_on_data_topic :
  @_on_message Demo.world "device/data" (Demo.bytes_of Demo.text_array) Demo.init =
    (Ok tt, Demo.init,
     [Log LDEBUG "Received message on topic: %s" [AStr "device/data"];
      Log LERROR "Error handling data message: %s"
          [AExc (TypeError "list indices must be integers or slices, not str")]]).
Proof. vm_compute. reflexivity. Qed.

(** A message on a topic outside the enumeration is decoded and dropped. *)
Example other_topic_ignored :
  @_on_message Demo.world "device/status" (Demo.bytes_of Demo.text_A) Demo.init =
    (Ok tt, Demo.init,
     [Log LDEBUG "Received message on topic: %s" [AStr "device/status"]]).
Proof. vm_compute. reflexivity. Qed.

(** The store refuses a row whose [timeout] is a string: [store_data]
    answers [False] and the row is not stored. *)
Example store_refuses_odd_row :
  @store_data Demo.world (Demo.record_odd "2024-12-03T10:00:01.000000") Demo.init =
    (Ok false, Demo.init,
     [DbInsert "stream_data" (asdict (Demo.record_odd "2024-12-03T10:00:01.000000"));
      Log LERROR "Error storing data: %s"
          [AExc (OtherException "APIError" "invalid input syntax for type integer")];
      LogTraceback (OtherException "APIError" "invalid input syntax for type integer")]).
Proof. vm_compute. reflexivity. Qed.

(** Three rounds against the flaky broker: two refused connections, then a
    session that subscribes, drops one message, stores one row and is
    lost.  Each round ends in a 5-second sleep. *)
Example flaky_broker_three_rounds :
  outcome (@start Demo.world 3 Demo.flaky) = Ok tt
  /\ connects (trace (@start Demo.world 3 Demo.flaky))
     = [("broker.local", 1883%Z); ("broker.local", 1883%Z); ("broker.local", 1883%Z)]
  /\ sleeps (trace (@start Demo.world 3 Demo.flaky)) = [5; 5; 5]%Z
  /\ subscriptions (trace (@start Demo.world 3 Demo.flaky))
     = [[("device/data", 1%Z); ("device/debug", 1%Z)]]
  /\ Demo.rows (world (@start Demo.world 3 Demo.flaky))
     = [asdict (Demo.record_A "2024-12-03T10:00:01.000000")].
Proof. repeat apply conj; vm_compute; reflexivity. Qed.

(** A broker that refuses [n] connections in a row, for any [n]: [n]
    attempts, [n] sleeps of 5 seconds, and the supervisor is still in its
    loop. *)
Example unreachable_broker (n : nat) :
  outcome (@start Demo.world n (Demo.unreachable n)) = Ok tt
  /\ connects (trace (@start Demo.world n (Demo.unreachable n)))
     = replicate n ("broker.local", 1883%Z)
  /\ sleeps (trace (@start Demo.world n (Demo.unreachable n))) = replicate n 5%Z.
Proof.
  induction n as [|n (IHo & IHc & IHs)]; [repeat split; reflexivity|].
  assert (@start_round Demo.world (Demo.unreachable (S n)) =
            (Ok tt, Demo.unreachable n,
             [Log LINFO "Connecting to MQTT broker at %s:%d"
                  [AStr "broker.local"; AInt 1883];
              Connect "broker.local" 1883]
             ++ retry_events Demo.refused)) as Hround by reflexivity.
  change (@start Demo.world (S n) (Demo.unreachable (S n)))
    with (bind (@start_round Demo.world) (fun _ => @start Demo.world n)
            (Demo.unreachable (S n))).
  rewrite (bind_ok _ _ _ _ _ _ Hround).
  unfold outcome at 1, world at 1. rewrite !trace_of_triple. simpl fst. simpl snd.
  unfold connects, sleeps in *. rewrite !omap_app, IHc, IHs.
  split; [exact IHo | split; reflexivity].
Qed.

(** ** Worked examples for the further properties *)

Lemma unknown_topic_dropped_witness :
  @_on_message Demo.world "device/status" (Demo.bytes_of Demo.text_A) Demo.init =
    (Ok tt, Demo.init,
     [Log LDEBUG "Received message on topic: %s" [AStr "device/status"]]).
Proof.
  apply (@unknown_topic_dropped Demo.world "device/status"
           (Demo.bytes_of Demo.text_A) (Demo.requote Demo.text_A) (PDict Demo.dict_A)
           Demo.init).
  - discriminate.
  - discriminate.
  - vm_compute; reflexivity.
  - vm_compute; reflexivity.
Defined.

Lemma non_object_on_data_topic_witness :
  exists msg,
    @_on_message Demo.world "device/data" (Demo.bytes_of Demo.text_array) Demo.init =
      (Ok tt, Demo.init,
       [Log LDEBUG "Received message on topic: %s" [AStr "device/data"];
        Log LERROR "Error handling data message: %s" [AExc (TypeError msg)]]).
Proof.
  apply (@non_object_on_data_topic Demo.world
           (Demo.bytes_of Demo.text_array) (Demo.requote Demo.text_array)
           (PList [PInt 1; PInt 2; PInt 3]) Demo.init).
  - vm_compute; reflexivity.
  - vm_compute; reflexivity.
  - discriminate.
Defined.

Lemma non_object_on_debug_topic_witness :
  outcome (@_handle_debug_message Demo.world (PList [PInt 1; PInt 2; PInt 3]) Demo.init)
    = Raise (AttributeError "'list' object has no attribute 'get'")
  /\ @_on_message Demo.world "device/debug" (Demo.bytes_of Demo.text_array) Demo.init =
       (Ok tt, Demo.init,
        [Log LDEBUG "Received message on topic: %s" [AStr "device/debug"];
         Log LERROR "Error processing message: %s"
             [AExc (AttributeError "'list' object has no attribute 'get'")];
         LogTraceback (AttributeError "'list' object has no attribute 'get'")]).
Proof.
  apply (@non_object_on_debug_topic Demo.world
           (Demo.bytes_of Demo.text_array) (Demo.requote Demo.text_array)
           (PList [PInt 1; PInt 2; PInt 3]) Demo.init).
  - vm_compute; reflexivity.
  - vm_compute; reflexivity.
  - discriminate.
Defined.

Lemma no_record_no_effect_witness :
  world (@for_each _ _ (@dispatch Demo.world) DemoHost.fruitless Demo.init) = Demo.init.
Proof.
  apply (@no_record_no_effect Demo.world DemoHost.fruitless Demo.init).
  vm_compute; reflexivity.
Defined.

Lemma failed_connect_skips_the_loop_witness :
  @start_round Demo.world Demo.flaky =
    (Ok tt,
     {| Demo.clock := Demo.clock Demo.flaky;
        Demo.rows := [];
        Demo.connect_plan := [Raise Demo.refused; Ok tt];
        Demo.session_plan := Demo.session_plan Demo.flaky |},
     [Log LINFO "Connecting to MQTT broker at %s:%d" [AStr "broker.local"; AInt 1883];
      Connect "broker.local" 1883;
      Log LERROR "MQTT connection error: %s" [AExc Demo.refused];
      LogTraceback Demo.refused;
      Log LINFO "Retrying connection in 5 seconds..." [];
      Sleep 5]).
Proof.
  apply (@failed_connect_skips_the_loop Demo.world Demo.flaky).
  vm_compute; reflexivity.
Defined.

Lemma clean_session_reconnects_at_once_witness :
  @start_round Demo.world DemoHost.calm =
    (Ok tt,
     world (@for_each _ _ (@dispatch Demo.world)
              (deliveries (fst (Demo.next_session DemoHost.calm)))
              (snd (Demo.next_session DemoHost.calm))),
     Log LINFO "Connecting to MQTT broker at %s:%d" [AStr "broker.local"; AInt 1883]
       :: Connect "broker.local" 1883
       :: Log LINFO "Starting MQTT loop..." []
       :: LoopForever
       :: trace (@for_each _ _ (@dispatch Demo.world)
                   (deliveries (fst (Demo.next_session DemoHost.calm)))
                   (snd (Demo.next_session DemoHost.calm))))
  /\ sleeps (trace (@start_round Demo.world DemoHost.calm)) = [].
Proof.
  apply (@clean_session_reconnects_at_once Demo.world DemoHost.calm DemoHost.calm);
    vm_compute; reflexivity.
Defined.

Lemma setup_environment_names_first_unset_witness :
  exists first,
    @first_unset Demo.world (DemoHost.host DemoHost.environ_empty_broker true) = Some first
    /\ first ∈ required_vars
    /\ (DemoHost.environ_empty_broker !! first = None
        \/ DemoHost.environ_empty_broker !! first = Some "")
    /\ @_setup_environment Demo.world (DemoHost.host DemoHost.environ_empty_broker true) =
         Raise (RuntimeError ("Missing required environment variable: " +:+ first)).
Proof.
  apply (@setup_environment_names_first_unset Demo.world
           (DemoHost.host DemoHost.environ_empty_broker true) "MQTT_BROKER").
  - unfold required_vars. repeat constructor.
  - right. vm_compute; reflexivity.
Defined.

Lemma setup_environment_complete_witness :
  @_setup_environment Demo.world (DemoHost.host DemoHost.environ_ok true) =
    Ok DemoHost.environ_ok.
Proof.
  apply (proj2 (@setup_environment_complete Demo.world
                  (DemoHost.host DemoHost.environ_ok true) DemoHost.environ_ok)).
  exists "https://project.supabase.co", "service-key", "broker.local", "1883".
  repeat split; try discriminate; vm_compute; reflexivity.
Defined.

Lemma database_manager_init_outcomes_witness :
  @DatabaseManager_init Demo.world (DemoHost.host DemoHost.environ_ok true)
    "https://project.supabase.co" "stale-key" Demo.init =
    (Raise (RuntimeError "Failed to initialize database connection"), Demo.init,
     [Log LERROR "Failed to connect to Supabase: %s"
          [AExc (OtherException "AuthApiError" "Invalid API key")]]).
Proof.
  apply (proj2 (@database_manager_init_outcomes Demo.world
                  (DemoHost.host DemoHost.environ_ok true)
                  "https://project.supabase.co" "stale-key" Demo.init));
    discriminate.
Defined.

Lemma bridge_constructor_config_witness :
  exists url key port_text,
    DemoHost.environ_ok !! "SUPABASE_URL" = Some url
    /\ DemoHost.environ_ok !! "SUPABASE_KEY" = Some key
    /\ fst (@create_client _ (DemoHost.host DemoHost.environ_ok true) url key Demo.init) = Ok tt
    /\ world (@MQTTBridge_init Demo.world (DemoHost.host DemoHost.environ_ok true) Demo.init)
       = snd (@create_client _ (DemoHost.host DemoHost.environ_ok true) url key Demo.init)
    /\ DemoHost.environ_ok !! "MQTT_BROKER" = Some (broker DemoHost.config_ok)
    /\ DemoHost.environ_ok !! "MQTT_PORT" = Some port_text
    /\ DemoHost.int_of_text port_text = Ok (port DemoHost.config_ok)
    /\ topics DemoHost.config_ok = [("device/data", 1%Z); ("device/debug", 1%Z)]
    /\ @_mqtt_config (bridge_world Demo.world DemoHost.config_ok) = DemoHost.config_ok.
Proof.
  apply (@bridge_constructor_config Demo.world (DemoHost.host DemoHost.environ_ok true)
           Demo.init DemoHost.config_ok).
  vm_compute; reflexivity.
Defined.

Lemma main_exits_on_failed_startup_witness :
  @main Demo.world (DemoHost.host DemoHost.environ_bad_key true) 7 Demo.flaky =
    (Ok (Exited 1), Demo.flaky,
     [Log LINFO "Starting MQTT Bridge service..." [];
      Log LERROR "Failed to connect to Supabase: %s"
          [AExc (OtherException "AuthApiError" "Invalid API key")];
      Log LERROR "Fatal error: %s"
          [AExc (RuntimeError "Failed to initialize database connection")];
      LogTraceback (RuntimeError "Failed to initialize database connection")])
  /\ connects (trace (@main Demo.world (DemoHost.host DemoHost.environ_bad_key true) 7
                        Demo.flaky)) = [].
Proof.
  apply (@main_exits_on_failed_startup Demo.world
           (DemoHost.host DemoHost.environ_bad_key true) 7 Demo.flaky Demo.flaky
           (RuntimeError "Failed to initialize database connection"));
    vm_compute; reflexivity.
Defined.

Lemma main_runs_forever_after_startup_witness :
  outcome (@main Demo.world (DemoHost.host DemoHost.environ_ok true) 3 Demo.flaky)
    = Ok Running
  /\ connects (trace (@main Demo.world (DemoHost.host DemoHost.environ_ok true) 3 Demo.flaky))
     = [("broker.local", 1883%Z); ("broker.local", 1883%Z); ("broker.local", 1883%Z)]
  /\ trace (@main Demo.world (DemoHost.host DemoHost.environ_ok true) 3 Demo.flaky) =
       Log LINFO "Starting MQTT Bridge service..." []
         :: [Log LINFO "Successfully connected to Supabase" []]
         ++ trace (@start (bridge_world Demo.world DemoHost.config_ok) 3 Demo.flaky).
Proof.
  apply (@main_runs_forever_after_startup Demo.world
           (DemoHost.host DemoHost.environ_ok true) 3 Demo.flaky Demo.flaky Demo.flaky
           DemoHost.config_ok [Log LINFO "Successfully connected to Supabase" []]);
    vm_compute; reflexivity.
Defined.

Lemma main_dies_unlogged_without_logs_directory_witness :
  @main Demo.world (DemoHost.host DemoHost.environ_ok false) 3 Demo.init =
    (Raise UnboundLocalError_logger, Demo.init, []).
Proof.
  apply (@main_dies_unlogged_without_logs_directory Demo.world
           (DemoHost.host DemoHost.environ_ok false) 3 Demo.init Demo.init
           (OtherException "PermissionError" "[Errno 13] Permission denied: 'logs'")).
  vm_compute; reflexivity.
Defined.

Lemma bridge_constructor_failures_witness :
  exists url key port_text,
    DemoHost.environ_bad_port !! "SUPABASE_URL" = Some url
    /\ DemoHost.environ_bad_port !! "SUPABASE_KEY" = Some key
    /\ DemoHost.environ_bad_port !! "MQTT_PORT" = Some port_text
    /\ fst (@create_client _ (DemoHost.host DemoHost.environ_bad_port true) url key
              Demo.init) = Ok tt
    /\ DemoHost.int_of_text port_text
       = Raise (ValueError "invalid literal for int() with base 10: 'mqtt'")
    /\ world (@MQTTBridge_init Demo.world (DemoHost.host DemoHost.environ_bad_port true)
                Demo.init)
       = snd (@create_client _ (DemoHost.host DemoHost.environ_bad_port true) url key
                Demo.init)
    /\ trace (@MQTTBridge_init Demo.world (DemoHost.host DemoHost.environ_bad_port true)
                Demo.init) =
         [Log LINFO "Successfully connected to Supabase" []].
Proof.
  destruct (@bridge_constructor_failures Demo.world
              (DemoHost.host DemoHost.environ_bad_port true) Demo.init
              (ValueError "invalid literal for int() with base 10: 'mqtt'"))
    as [(Habsurd & _)
       |[(var & _ & _ & Habsurd & _)
        |[(url & key & cause & _ & _ & _ & Habsurd & _)
         |[Hport
          |(url & key & port_text & n & _ & _ & _ & _ & _ & Habsurd & _)]]]].
  - vm_compute; reflexivity.
  - discriminate Habsurd.
  - discriminate Habsurd.
  - discriminate Habsurd.
  - exact Hport.
  - discriminate Habsurd.
Defined.

(** The two ends of the order in which the constructor can fail: a [.env]
    file that cannot be decoded stops it before anything is logged; a paho
    client that cannot be created stops it after the Supabase client was
    created and announced. *)
Example constructor_fails_first_and_last :
  @MQTTBridge_init Demo.world
    (DemoHost.host_where (Raise (UnicodeDecodeError "'utf-8' codec can't decode bytes"))
       (Ok tt)) Demo.init
  = (Raise (UnicodeDecodeError "'utf-8' codec can't decode bytes"), Demo.init, [])
  /\ @MQTTBridge_init Demo.world
       (DemoHost.host_where (Ok tt) (Raise (ValueError "Unsupported callback API version")))
       Demo.init
     = (Raise (ValueError "Unsupported callback API version"),
        Demo.init, [Log LINFO "Successfully connected to Supabase" []]).
Proof. repeat apply conj; vm_compute; reflexivity. Qed.

(** The same directive formats an [int]: the start-up line of a round, with
    the port under [%d], reaches the log, as does the report of a message
    whose decoding failed; a debug-level call does not. *)
Example lines_that_reach_the_log :
  formats "Failed to connect to MQTT broker with code %d" [AInt 135] = true
  /\ lines_written
       [Log LINFO "Connecting to MQTT broker at %s:%d" [AStr "broker.local"; AInt 1883]]
     = [Log LINFO "Connecting to MQTT broker at %s:%d" [AStr "broker.local"; AInt 1883]]
  /\ lines_written
       (trace (@_on_message Demo.world "device/data" (Demo.bytes_of Demo.text_C) Demo.init))
     = [Log LERROR "Failed to decode JSON message: %s"
            [AExc (JSONDecodeError "Expecting value")]].
Proof. repeat apply conj; vm_compute; reflexivity. Qed.
